(** * hotwheel_scrape: a shallow embedding and its verification

    The program fetches reference pages, extracts the first table of each,
    normalises the scraped names, writes one export per group and merges the
    "by year" and "by series" collections into one catalog.

    The embedding follows [src/hotwheel_scrape.py] function by function.
    Library calls (requests, BeautifulSoup, pandas, os) are modelled by what
    their documentation promises; everything the outside world decides (what
    a URL answers, whether a directory can be created, whether a file can be
    written) is a field of [World].

    Modelling choices:
    - a cell of a table holds text or is missing; text is a string of
      bytes (UTF-8), whose byte order is Python's order on [str];
    - a frame is its column labels and its rows; the row index, which the
      program drops or ignores everywhere, is left out;
    - files hold the frame that was written, not its serialisation;
    - the set-up of the logging module is left out, a log is the list of
      its records;
    - the thread pool of a batch is modelled by the order in which its
      units run to completion. *)

From Stdlib Require Import ZArith String Ascii List Sorted Permutation Lia.
From stdpp Require Import base option list sorting strings pretty gmap sets.

Local Open Scope string_scope.
Local Open Scope list_scope.

(** ** Python exceptions *)

Module Py.

(** The exception classes the program can meet, with their base class. *)
Inductive class :=
| BaseException | KeyboardInterrupt | SystemExit | Exception
| ValueError | TypeError | LookupError | IndexError | KeyError
| OSError | FileNotFoundError | PermissionError
| RequestException | HTTPError | ConnectionError | Timeout.

#[global] Instance class_eq_dec : EqDecision class.
Proof. solve_decision. Defined.

Definition base (c : class) : option class :=
  match c with
  | BaseException => None
  | KeyboardInterrupt | SystemExit | Exception => Some BaseException
  | ValueError | TypeError | LookupError | OSError => Some Exception
  | IndexError | KeyError => Some LookupError
  | FileNotFoundError | PermissionError => Some OSError
  | RequestException => Some OSError
  | HTTPError | ConnectionError | Timeout => Some RequestException
  end.

(** [issubclass_fuel n c d]: [d] is reached from [c] in at most [n] steps
    up the hierarchy. *)
Fixpoint issubclass_fuel (n : nat) (c d : class) : bool :=
  if decide (c = d) then true
  else match n, base c with
       | S n', Some b => issubclass_fuel n' b d
       | _, _ => false
       end.

(** The hierarchy above is five levels deep. *)
Definition issubclass (c d : class) : bool := issubclass_fuel 5 c d.

Record exn := mk_exn { exn_class : class; exn_msg : string }.

Definition isinstance (e : exn) (d : class) : bool :=
  issubclass (exn_class e) d.

(** What a call does: it returns a value or raises. *)
Inductive outcome (A : Type) :=
| Returned (a : A)
| Raised (e : exn).
Arguments Returned {A} a.
Arguments Raised {A} e.

(** [seq[i]] on a Python list: negative indexes count from the end, an
    index out of range raises IndexError. *)
Definition getitem {A} (l : list A) (i : Z) : outcome A :=
  let n := Z.of_nat (length l) in
  let j := if (i <? 0)%Z then (n + i)%Z else i in
  if ((0 <=? j) && (j <? n))%Z
  then match l !! Z.to_nat j with
       | Some a => Returned a
       | None => Raised (mk_exn IndexError "list index out of range")
       end
  else Raised (mk_exn IndexError "list index out of range").

(** [needle in haystack] on str. *)
Fixpoint contains (needle haystack : string) : bool :=
  String.prefix needle haystack ||
  match haystack with
  | EmptyString => false
  | String _ rest => contains needle rest
  end.

(** [s.replace(old, new)] on str, for a non-empty [old]: the occurrences
    of [old] from left to right, none overlapping.  [skip] counts the
    characters of an occurrence still to pass. *)
Fixpoint str_replace_from (skip : nat) (old new s : string) : string :=
  match s with
  | EmptyString => EmptyString
  | String c rest =>
      match skip with
      | S skip' => str_replace_from skip' old new rest
      | O =>
          if String.prefix old s
          then new +:+ str_replace_from (String.length old - 1) old new rest
          else String c (str_replace_from 0 old new rest)
      end
  end.

Definition str_replace (old new s : string) : string :=
  str_replace_from 0 old new s.

End Py.
Export Py.

(** ** pandas *)

Module Pandas.

(** A cell holds text or is missing (NaN / None). *)
Abbreviation Cell := (option string) (only parsing).
Abbreviation Row := (list (option string)) (only parsing).

Record DataFrame := mk_df { columns : list string; rows : list Row }.

#[global] Instance DataFrame_eq_dec : EqDecision DataFrame.
Proof. solve_decision. Defined.

(** [pd.DataFrame()] *)
Definition empty_frame : DataFrame := mk_df [] [].

(** Frames are rectangular and their column labels are distinct. *)
Definition wf (df : DataFrame) : Prop :=
  NoDup (columns df) ∧ Forall (λ r, length r = length (columns df)) (rows df).

#[global] Instance wf_dec df : Decision (wf df).
Proof. unfold wf. apply _. Defined.

(** Position of a column label. *)
Definition get_loc (c : string) (cols : list string) : option nat :=
  fst <$> list_find (λ x, x = c) cols.

(** The cell of row [r] under label [c]; missing when the frame has no
    such column. *)
Definition cell (df : DataFrame) (c : string) (r : Row) : Cell :=
  match get_loc c (columns df) with
  | Some i => mjoin (r !! i)
  | None => None
  end.

(** [df.iloc[:, j] = v]: positional, raises IndexError when the frame has
    no column [j] (iloc cannot enlarge its target). *)
Definition iloc_set_column (df : DataFrame) (j : nat) (v : Cell)
  : outcome DataFrame :=
  if decide (j < length (columns df))
  then Returned (mk_df (columns df) (fmap (λ r, <[j := v]> r) (rows df)))
  else Raised (mk_exn IndexError "iloc cannot enlarge its target object").

(** [df.stack()]: row by row, column by column, the cells that are not
    missing (stacking drops missing values), each indexed by
    (row position, column position). *)
Definition stack_row (i : nat) (r : Row) : list ((nat * nat) * string) :=
  omap (λ jc : nat * Cell, (λ s, ((i, jc.1), s)) <$> jc.2) (imap pair r).

Definition stack (df : DataFrame) : list ((nat * nat) * string) :=
  mjoin (imap stack_row (rows df)).

(** [.reset_index(drop=True)] *)
Definition reset_index_drop {I} (s : list (I * string)) : list string :=
  fmap snd s.

(** [.to_frame(name=...)] *)
Definition to_frame (name : string) (s : list string) : DataFrame :=
  mk_df [name] (fmap (λ v, [Some v]) s).

(** Order of [sort_values]: text by code point (UTF-8 strings compared
    byte by byte), missing values last. *)
Definition cell_le (a b : Cell) : Prop :=
  match a, b with
  | Some x, Some y => String.le x y
  | _, None => True
  | None, Some _ => False
  end.

#[global] Instance cell_le_dec : RelDecision cell_le.
Proof. intros [x|] [y|]; simpl; apply _. Defined.

Definition row_le (df : DataFrame) (by_ : string) (r1 r2 : Row) : Prop :=
  cell_le (cell df by_ r1) (cell df by_ r2).

#[global] Instance row_le_dec df by_ : RelDecision (row_le df by_).
Proof. intros r1 r2. unfold row_le. apply _. Defined.

(** [df.sort_values(by=...)]: the rows in ascending order of their cell
    under [by_].  Both frames the program sorts have no two rows with the
    same key and different content, so the sorting algorithm does not show. *)
Definition sort_values (by_ : string) (df : DataFrame) : DataFrame :=
  mk_df (columns df) (merge_sort (row_le df by_) (rows df)).

(** [series.replace(mapping)]: a value equal to a key becomes that key's
    value, any other value stays. *)
Definition replace_value (m : gmap string string) (v : string) : string :=
  default v (m !! v).

(** [df[c] = df[c].replace(mapping)] *)
Definition replace_column (c : string) (m : gmap string string)
    (df : DataFrame) : DataFrame :=
  match get_loc c (columns df) with
  | Some i =>
      mk_df (columns df)
        (fmap (λ r, <[i := replace_value m <$> mjoin (r !! i)]> r) (rows df))
  | None => df
  end.

(** [df.drop_duplicates()]: of equal rows the first one stays. *)
Fixpoint drop_dups {A} `{EqDecision A} (seen l : list A) : list A :=
  match l with
  | [] => []
  | x :: l' =>
      if decide (x ∈ seen) then drop_dups seen l'
      else x :: drop_dups (x :: seen) l'
  end.

Definition drop_duplicates (df : DataFrame) : DataFrame :=
  mk_df (columns df) (drop_dups [] (rows df)).

(** [df[key] = value] with a scalar: the column is overwritten when it
    exists and appended otherwise. *)
Definition assign_column (df : DataFrame) (key value : string) : DataFrame :=
  match get_loc key (columns df) with
  | Some i => mk_df (columns df) (fmap (λ r, <[i := Some value]> r) (rows df))
  | None => mk_df (columns df ++ [key]) (fmap (λ r, r ++ [Some value]) (rows df))
  end.

(** Labels of a list of frames in order of first appearance. *)
Definition union_columns (dfs : list DataFrame) : list string :=
  drop_dups [] (mjoin (fmap columns dfs)).

(** [pd.concat(frames, ignore_index=True)]: the rows of all frames one
    after the other, under the union of their columns; a row has a missing
    value under a column its frame does not have. *)
Definition reindex (cols : list string) (df : DataFrame) : list Row :=
  fmap (λ r, fmap (λ c, cell df c r) cols) (rows df).

Definition concat (dfs : list DataFrame) : DataFrame :=
  let cols := union_columns dfs in
  mk_df cols (mjoin (fmap (reindex cols) dfs)).

(** [series.dropna()] on the values of one column. *)
Definition dropna (s : list Cell) : list string := omap id s.

(** [sorted(set(values))]: the set loses order and repetitions, [sorted]
    returns its members in ascending order. *)
Definition sorted_set (values : list string) : list string :=
  merge_sort String.le (elements (list_to_set values : gset string)).

End Pandas.
Export Pandas.

(** ** requests and the page *)

Module Requests.

(** A page is read through [soup.find("table")] only, so it is modelled by
    its table elements in document order.  A table element is modelled by
    what [pd.read_html] makes of its markup: one frame per logical table
    that has rows (the element's own, then the nested ones).  An element
    without rows yields no frame. *)
Abbreviation TableElement := (list DataFrame) (only parsing).
Abbreviation Html := (list (list DataFrame)) (only parsing).

Record Response := mk_response { status_code : Z; text : Html }.

(** [response.raise_for_status()]: HTTPError for the client errors
    (400 to 499) and the server errors (500 to 599), nothing otherwise. *)
Definition raise_for_status (r : Response) : outcome unit :=
  if ((400 <=? status_code r) && (status_code r <? 600))%Z
  then Raised (mk_exn HTTPError "HTTP error")
  else Returned tt.

(** [soup.find("table")]: the first table element, or None. *)
Definition find_table (soup : Html) : option TableElement := head soup.

(** [pd.read_html(markup)]: the list of frames, never empty; ValueError
    when no table is found. *)
Definition read_html (t : TableElement) : outcome (list DataFrame) :=
  match t with
  | [] => Raised (mk_exn ValueError "No tables found")
  | _ => Returned t
  end.

End Requests.
Export Requests.

(** ** The outside world and the program's state *)

(** The list without its longest prefix of elements that satisfy [p]. *)
Fixpoint drop_while {A} (p : A → bool) (l : list A) : list A :=
  match l with
  | [] => []
  | x :: l' => if p x then drop_while p l' else l
  end.

Definition is_slash (c : ascii) : bool := Ascii.eqb c "/"%char.

(** [os.path.dirname]: everything up to the last slash, without the
    slashes that end it unless it is made of slashes only. *)
Definition dirname (p : string) : string :=
  let cs := list_ascii_of_string p in
  let head := rev (drop_while (λ c, negb (is_slash c)) (rev cs)) in
  if forallb is_slash head then string_of_list_ascii head
  else string_of_list_ascii (rev (drop_while is_slash (rev head))).

(** One row of the catalog: a name with its years and its series. *)
Record CatalogEntry := mk_entry {
  entry_name : string;
  entry_Year : list string;
  entry_Series : list string }.

(** The aggregated frame: the name column's label and one entry per row,
    under the columns (name column, "Year", "Series"). *)
Record CatalogFrame := mk_catalog {
  name_column : string;
  entries : list CatalogEntry }.

Inductive FileContent :=
| CsvOf (df : DataFrame)            (* df.to_csv(path, index=False) *)
| CatalogCsv (c : CatalogFrame)     (* all_df.to_csv(path, index=False) *)
| CatalogJson (c : CatalogFrame).   (* all_df.to_json(path, orient="records") *)

Inductive Level := INFO | ERROR.
Record LogRecord := mk_log { level : Level; message : string }.

Record State := mk_state {
  files : gmap string FileContent;
  dirs : gset string;
  log : list LogRecord }.

(** What the program cannot decide: the answer to a GET, and whether the
    file system lets a directory be created or a file be written
    ([None]: it does). *)
Record World := mk_world {
  requests_get : string → outcome Response;
  os_makedirs : string → option exn;
  open_for_write : string → option exn }.

(** Computations: state passing with exceptions; what was logged or
    written before an exception stays. *)
Definition M (A : Type) : Type := State → outcome A * State.

#[global] Instance M_ret : MRet M := λ A a st, (Returned a, st).
#[global] Instance M_bind : MBind M := λ A B f m st,
  match m st with
  | (Returned a, st') => f a st'
  | (Raised e, st') => (Raised e, st')
  end.

Definition lift {A} (o : outcome A) : M A := λ st, (o, st).
Definition raise {A} (e : exn) : M A := lift (Raised e).

Definition append_log (l : Level) (msg : string) : M unit := λ st,
  (Returned tt, mk_state (files st) (dirs st) (log st ++ [mk_log l msg])).

(** [os.makedirs(d, exist_ok=True)]: the empty path cannot be created,
    for any other the file system decides. *)
Definition makedirs_error (w : World) (d : string) : option exn :=
  if decide (d = "")
  then Some (mk_exn FileNotFoundError "[Errno 2] No such file or directory: ''")
  else os_makedirs w d.

Definition makedirs (w : World) (d : string) : M unit := λ st,
  match makedirs_error w d with
  | Some e => (Raised e, st)
  | None => (Returned tt, mk_state (files st) ({[d]} ∪ dirs st) (log st))
  end.

(** Writing a file replaces what the path held. *)
Definition write_file (w : World) (path : string) (c : FileContent) : M unit :=
  λ st,
  match open_for_write w path with
  | Some e => (Raised e, st)
  | None => (Returned tt, mk_state (<[path := c]> (files st)) (dirs st) (log st))
  end.

(** ** The program *)

Definition BASE_URL : string := "https://onlineredlineguide.com".
Definition OUTPUT_DIR : string := "output/reports".

Definition log_message (msg : string) : M unit := append_log INFO msg.

(** [logger.exception(msg)]: an ERROR record (with the traceback). *)
Definition logger_exception (msg : string) : M unit := append_log ERROR msg.

Definition rename_items : list (string * string) :=
  [ ("Mongoose 2", "Mongoose II");
    ("Snake 2", "Snake II");
    ("Mongoose II Funny Car", "Mongoose II");
    ("Snake II Funny Car", "Snake II");
    ("Mongoose Funny Car", "Mongoose");
    ("Snake Funny Car", "Snake");
    ("Mongoose Funny Rail Dragster", "Mongoose Rail Dragster");
    ("Alive 55", "Alive '55");
    ("King Cuda", "King 'Cuda");
    ("Grasshopper", "Grass Hopper") ].

Definition rename_map : gmap string string := list_to_map rename_items.

(** Lines 70 to 72: the special handling for snake_mongoose. *)
Definition special_handling (outfile : string) (df : DataFrame)
  : outcome DataFrame :=
  if contains "snake_mongoose" outfile
  then iloc_set_column df 1 None
  else Returned df.

(** Lines 74 to 91: from the parsed table to the cleaned frame. *)
Definition clean (main_column_name : string) (df : DataFrame) : DataFrame :=
  let df := to_frame main_column_name (reset_index_drop (stack df)) in
  let df := sort_values main_column_name df in
  let df := replace_column main_column_name rename_map df in
  drop_duplicates df.

(** The body of the [try] block of [scrape_url]. *)
Definition scrape_try (w : World) (url : string) (table_index : Z)
    (outfile main_column_name : string) : M DataFrame :=
  log_message ("Fetching URL: " +:+ url);;
  response ← lift (requests_get w url);
  lift (raise_for_status response);;
  let soup := text response in
  match find_table soup with
  | None =>
      log_message ("No table found at " +:+ url +:+ ".");;
      raise (mk_exn ValueError ("No table found at " +:+ url))
  | Some table =>
      tables ← lift (read_html table);
      df ← lift (getitem tables table_index);
      df ← lift (special_handling outfile df);
      let df := clean main_column_name df in
      makedirs w (dirname outfile);;
      write_file w outfile (CsvOf df);;
      log_message ("Data saved to " +:+ outfile +:+ ".");;
      mret df
  end.

(** [scrape_url]: the [try] block under its three handlers, None after
    each of them.  An exception that is no instance of [Exception] is not
    handled. *)
Definition scrape_url (w : World) (url : string) (table_index : Z)
    (outfile main_column_name : string) : M (option DataFrame) := λ st,
  match scrape_try w url table_index outfile main_column_name st with
  | (Returned df, st') => (Returned (Some df), st')
  | (Raised e, st') =>
      if isinstance e RequestException then
        (log_message ("Error fetching the URL " +:+ url +:+ ": " +:+ exn_msg e);;
         mret None) st'
      else if isinstance e ValueError then
        (log_message ("ValueError: " +:+ exn_msg e);; mret None) st'
      else if isinstance e Exception then
        (logger_exception ("Unexpected error processing " +:+ url);;
         mret None) st'
      else (Raised e, st')
  end.

(** The two-key dictionaries of [create_years_dict] and
    [create_series_dict]: the labels and the table index of each. *)
Record DataDict := mk_dict {
  dict_labels : list string;
  dict_table_index : list Z }.

(** What a future holds once its unit is done. *)
Abbreviation Future := (string * outcome (option DataFrame))%type (only parsing).

(** Lines 122 to 131: one unit per pair of a label and its table index. *)
Definition submit_all (w : World) (main_column_name : string)
    (data_dict : DataDict) : list (string * M (option DataFrame)) :=
  fmap (λ row : string * Z,
         let year_or_series := row.1 in
         let table_index := row.2 in
         let outfile :=
           OUTPUT_DIR +:+ "/hotwheels-" +:+ year_or_series +:+ ".csv" in
         let url := BASE_URL +:+ "/" +:+ year_or_series +:+ ".html" in
         (year_or_series,
          scrape_url w url table_index outfile main_column_name))
      (zip (dict_labels data_dict) (dict_table_index data_dict)).

(** The thread pool, by the order in which the units run to completion:
    [order] lists positions in the submitted units.  Each unit writes its
    own file and appends its own log records. *)
Fixpoint run_pool (units : list (string * M (option DataFrame)))
    (order : list nat) (st : State) : list Future * State :=
  match order with
  | [] => ([], st)
  | i :: order' =>
      match units !! i with
      | Some (label, task) =>
          let '(r, st') := (task st : outcome (option DataFrame) * State) in
          let '(done_, st'') := run_pool units order' st' in
          ((label, r) :: done_, st'')
      | None => run_pool units order' st
      end
  end.

(** Lines 133 to 137: the loop over [as_completed(futures)].  It stops at
    the first future whose [result()] raises; [all_df] keeps what was
    appended before. *)
Fixpoint collect (dict_key : string) (completed : list Future)
    (all_df : list DataFrame) : list DataFrame * option exn :=
  match completed with
  | [] => (all_df, None)
  | (label, Returned (Some df)) :: rest =>
      collect dict_key rest (all_df ++ [assign_column df dict_key label])
  | (label, Returned None) :: rest => collect dict_key rest all_df
  | (label, Raised e) :: _ => (all_df, Some e)
  end.

(** Line 142. *)
Definition combine (all_df : list DataFrame) : DataFrame :=
  match all_df with
  | [] => empty_frame
  | _ => concat all_df
  end.

(** Lines 133 to 142 as a function of the completed futures. *)
Definition gather (dict_key : string) (completed : list Future)
  : M DataFrame :=
  match collect dict_key completed [] with
  | (all_df, None) => mret (combine all_df)
  | (all_df, Some e) =>
      if isinstance e Exception then
        log_message "Error occurred during CSV creation.";;
        mret (combine all_df)
      else raise e
  end.

(** The [with ThreadPoolExecutor()] block up to the point where every
    future is done. *)
Definition executor (w : World) (main_column_name : string)
    (data_dict : DataDict) (order : list nat) : M (list Future) := λ st,
  let '(completed, st') :=
    run_pool (submit_all w main_column_name data_dict) order st in
  (Returned completed, st').

Definition create_csv_files (w : World) (main_column_name : string)
    (data_dict : DataDict) (dict_key : string) (order : list nat)
  : M DataFrame :=
  log_message ("Starting CSV creation for " +:+ dict_key +:+ ".");;
  completed ← executor w main_column_name data_dict order;
  gather dict_key completed.

(** [all_df.groupby(by)]: the group keys are the distinct values of the
    column, missing ones left out, in ascending order; a group holds the
    rows of its key. *)
Definition group_keys (df : DataFrame) (by_ : string) : list string :=
  sorted_set (dropna (fmap (cell df by_) (rows df))).

Definition get_group (df : DataFrame) (by_ key : string) : list Row :=
  filter (λ r, cell df by_ r = Some key) (rows df).

(** The aggregation [lambda x: sorted(set(x.dropna()))] on one column of
    one group. *)
Definition agg_column (df : DataFrame) (c : string) (group : list Row)
  : list string :=
  sorted_set (dropna (fmap (cell df c) group)).

(** [.groupby(main).agg({"Year": ..., "Series": ...}).reset_index()];
    [reset_index] cannot insert the name column when an aggregated column
    already bears its label. *)
Definition groupby_agg (main_column_name : string) (df : DataFrame)
  : outcome CatalogFrame :=
  if decide (main_column_name ∈ ["Year"; "Series"])
  then Raised (mk_exn ValueError
                 ("cannot insert " +:+ main_column_name +:+ ", already exists"))
  else Returned (mk_catalog main_column_name
         (fmap (λ k, let g := get_group df main_column_name k in
                    mk_entry k (agg_column df "Year" g)
                               (agg_column df "Series" g))
              (group_keys df main_column_name))).

Definition entry_le (e1 e2 : CatalogEntry) : Prop :=
  String.le (entry_name e1) (entry_name e2).

#[global] Instance entry_le_dec : RelDecision entry_le.
Proof. intros e1 e2. unfold entry_le. apply _. Defined.

(** [all_df.sort_values(by=main_column_name, inplace=True)] *)
Definition sort_catalog (c : CatalogFrame) : CatalogFrame :=
  mk_catalog (name_column c) (merge_sort entry_le (entries c)).

Definition csv_outfile : string := OUTPUT_DIR +:+ "/redlines.csv".
Definition json_outfile : string := str_replace ".csv" ".json" csv_outfile.

Definition expected_columns (main_column_name : string) : gset string :=
  {[ main_column_name; "Year"; "Series" ]}.

Definition combined_columns (all_years_df all_series_df : DataFrame)
  : gset string :=
  list_to_set (columns all_years_df) ∪ list_to_set (columns all_series_df).

Definition create_combined_csv_file (w : World) (main_column_name : string)
    (all_years_df all_series_df : DataFrame) : M unit :=
  if decide (expected_columns main_column_name
               ⊆ combined_columns all_years_df all_series_df)
  then
    let all_df := concat [all_years_df; all_series_df] in
    all_df ← lift (groupby_agg main_column_name all_df);
    makedirs w (dirname csv_outfile);;
    let all_df := sort_catalog all_df in
    write_file w csv_outfile (CatalogCsv all_df);;
    log_message ("CSV saved to " +:+ csv_outfile +:+ ".");;
    write_file w json_outfile (CatalogJson all_df);;
    log_message ("JSON saved to " +:+ json_outfile +:+ ".")
  else
    log_message "Missing expected columns. Skipping CSV and JSON creation.".

(** The value of [all_df] after line 171: the table that is written. *)
Definition merged_table (main_column_name : string)
    (all_years_df all_series_df : DataFrame) : outcome CatalogFrame :=
  let all_df := concat [all_years_df; all_series_df] in
  match groupby_agg main_column_name all_df with
  | Returned all_df => Returned (sort_catalog all_df)
  | Raised e => Raised e
  end.

Definition create_years_dict : DataDict :=
  mk_dict (fmap (λ year : Z, pretty year) (seqZ 1968 10))
          [0; 0; 1; 0; 0; 0; 0; 0; 0; 0]%Z.

Definition create_series_dict : DataDict :=
  mk_dict [ "customs"; "gran_prix"; "heavyweights"; "spoilers";
            "super_chromes"; "snake_mongoose"; "classics" ]
          (replicate 7 0%Z).

Definition wrapper_create_csv_files (w : World)
    (file_info : string * DataDict * string) (order : list nat)
  : M DataFrame :=
  let '(main_column_name, data_dict, dict_key) := file_info in
  create_csv_files w main_column_name data_dict dict_key order.

(** [main]: the two batches, then the merge.  [order_years] and
    [order_series] are the completion orders of the two thread pools. *)
Definition main (w : World) (order_years order_series : list nat) : M unit :=
  let main_column_name := "Casting" in
  log_message "Starting multiprocessing pool.";;
  all_years_df ← wrapper_create_csv_files w
                   (main_column_name, create_years_dict, "Year") order_years;
  all_series_df ← wrapper_create_csv_files w
                    (main_column_name, create_series_dict, "Series")
                    order_series;
  log_message "Creating combined CSV and JSON files...";;
  create_combined_csv_file w main_column_name all_years_df all_series_df;;
  log_message "Finished creating combined files.".

(** ** The Normalizer in the words of the specification *)



(** Step 4: the synonym table, matched against the whole value. *)
Definition canonical_form (v : string) : string :=
  if decide (v = "Mongoose 2") then "Mongoose II"
  else if decide (v = "Snake 2") then "Snake II"
  else if decide (v = "Mongoose II Funny Car") then "Mongoose II"
  else if decide (v = "Snake II Funny Car") then "Snake II"
  else if decide (v = "Mongoose Funny Car") then "Mongoose"
  else if decide (v = "Snake Funny Car") then "Snake"
  else if decide (v = "Mongoose Funny Rail Dragster")
       then "Mongoose Rail Dragster"
  else if decide (v = "Alive 55") then "Alive '55"
  else if decide (v = "King Cuda") then "King 'Cuda"
  else if decide (v = "Grasshopper") then "Grass Hopper"
  else v.



(** The names of the cleaned frame, in order. *)
Definition clean_values (df : DataFrame) : list string :=
  drop_dups []
    (replace_value rename_map
       <$> merge_sort String.le (dropna (mjoin (rows df)))).

(** ** Notions the statements use *)

(** The failures the world can cause are errors, that is instances of
    [Exception]; KeyboardInterrupt and SystemExit are not. *)
Definition world_raises_errors (w : World) : Prop :=
  (∀ url e, requests_get w url = Raised e → isinstance e Exception = true) ∧
  (∀ d e, os_makedirs w d = Some e → isinstance e Exception = true) ∧
  (∀ p e, open_for_write w p = Some e → isinstance e Exception = true).

(** The record the handlers of [scrape_url] log for an error. *)
Definition handler_record (url : string) (e : exn) : LogRecord :=
  if isinstance e RequestException then
    mk_log INFO ("Error fetching the URL " +:+ url +:+ ": " +:+ exn_msg e)
  else if isinstance e ValueError then
    mk_log INFO ("ValueError: " +:+ exn_msg e)
  else mk_log ERROR ("Unexpected error processing " +:+ url).

(** The table the Extractor hands to the Normalizer, when there is one. *)
Definition parsed_table (w : World) (url : string) (table_index : Z)
  : option DataFrame :=
  match requests_get w url with
  | Returned response =>
      match raise_for_status response, find_table (text response) with
      | Returned _, Some table =>
          match read_html table with
          | Returned tables =>
              match getitem tables table_index with
              | Returned df => Some df
              | Raised _ => None
              end
          | Raised _ => None
          end
      | _, _ => None
      end
  | Raised _ => None
  end.




(** The units that did not return None, with their labels. *)
Definition successes (completed : list Future) : list (string * DataFrame) :=
  omap (λ f : Future,
          match f.2 with
          | Returned (Some df) => Some (f.1, df)
          | _ => None
          end) completed.

Definition tag (dict_key : string) (u : string * DataFrame) : DataFrame :=
  assign_column u.2 dict_key u.1.

(** A table has a row for [name], and a row that attaches [value] to
    [name] under column [c]. *)
Definition named (df : DataFrame) (by_ name : string) : Prop :=
  ∃ r, r ∈ rows df ∧ cell df by_ r = Some name.

Definition labelled (df : DataFrame) (by_ name c value : string) : Prop :=
  ∃ r, r ∈ rows df ∧ cell df by_ r = Some name ∧ cell df c r = Some value.

(** [l] lists the members of a set of strings in ascending order. *)
Definition ascending (l : list string) : Prop :=
  Sorted String.le l ∧ NoDup l.


(** A file system that accepts the two catalog files. *)
Definition accepts_catalog (w : World) : Prop :=
  os_makedirs w (dirname csv_outfile) = None ∧
  open_for_write w csv_outfile = None ∧
  open_for_write w json_outfile = None.

(** The rows a unit contributes: its names, each with the unit's label. *)
Definition tagged_rows (u : string * DataFrame) : list Row :=
  (λ r, r ++ [Some u.1]) <$> rows u.2.

(** The state in which the units of a batch start. *)
Definition batch_started (dict_key : string) (st : State) : State :=
  mk_state (files st) (dirs st)
    (log st ++
       [mk_log INFO ("Starting CSV creation for " +:+ dict_key +:+ ".")]).

(** ** Sample pages and worlds *)

(** Nothing written, nothing logged. *)
Definition fresh : State := mk_state ∅ ∅ [].

(** The addresses and export paths [create_csv_files] builds for the
    labels "1968" and "snake_mongoose". *)
Definition url_1968 : string := BASE_URL +:+ "/1968.html".
Definition csv_1968 : string := OUTPUT_DIR +:+ "/hotwheels-1968.csv".
Definition url_snake_mongoose : string := BASE_URL +:+ "/snake_mongoose.html".
Definition snake_mongoose_csv : string :=
  OUTPUT_DIR +:+ "/hotwheels-snake_mongoose.csv".

(** A world that answers every GET with the given status and page, and
    whose file system accepts everything. *)
Definition serve (status : Z) (page : Html) : World :=
  mk_world (λ _, Returned (mk_response status page)) (λ _, None) (λ _, None).

(** A world without network. *)
Definition offline : World :=
  mk_world (λ _, Raised (mk_exn ConnectionError "connection refused"))
           (λ _, None) (λ _, None).

(** A world that serves the page but whose file system is read-only. *)
Definition read_only (status : Z) (page : Html) : World :=
  mk_world (λ _, Returned (mk_response status page))
           (λ _, Some (mk_exn PermissionError "Permission denied"))
           (λ _, Some (mk_exn PermissionError "Permission denied")).

(** A table of one column, as on the page of the unit tests. *)
Definition names_table : DataFrame :=
  mk_df ["Name"] [[Some "Snake"]; [Some "Mongoose 2"]].


(** A table with a second column of its own. *)
Definition rivals_table : DataFrame :=
  mk_df ["Name"; "Rival"]
        [[Some "Snake 2"; Some "Mongoose"]; [Some "Snake"; None]].

(** Two names whose order the rewriting reverses. *)
Definition dragster_table : DataFrame :=
  mk_df ["Name"] [[Some "Snake 2"]; [Some "Snake Dragster"]].

(** The tables of the specification's merge scenario. *)
Definition years_sample : DataFrame :=
  mk_df ["Casting"; "Year"]
        [[Some "Mongoose"; Some "1968"]; [Some "Snake"; Some "1969"]].

Definition series_sample : DataFrame :=
  mk_df ["Casting"; "Series"] [[Some "Mongoose"; Some "classics"]].

(** A years table that lost its "Year" column. *)
Definition years_unlabelled : DataFrame :=
  mk_df ["Casting"] [[Some "Mongoose"]; [Some "Snake"]].

(** A world in which only the page of 1968 can be fetched. *)
Definition only_1968 : World :=
  mk_world (λ url, if decide (url = url_1968)
                   then Returned (mk_response 200 [[names_table]])
                   else Raised (mk_exn ConnectionError "connection refused"))
           (λ _, None) (λ _, None).

(** A world in which the fetch is interrupted from the keyboard. *)
Definition interrupted : World :=
  mk_world (λ _, Raised (mk_exn KeyboardInterrupt "")) (λ _, None) (λ _, None).

(** ** Notions and samples of the further properties *)

(** The address and the export path [create_csv_files] builds for a label
    (lines 124 and 125). *)
Definition page_url (label : string) : string :=
  BASE_URL +:+ "/" +:+ label +:+ ".html".

Definition export_path (label : string) : string :=
  OUTPUT_DIR +:+ "/hotwheels-" +:+ label +:+ ".csv".

(** A text without slash. *)
Definition slash_free (s : string) : Prop :=
  forallb (λ c, negb (is_slash c)) (list_ascii_of_string s) = true.


(** The state after one more record. *)
Definition logged (st : State) (records : list LogRecord) : State :=
  mk_state (files st) (dirs st) (log st ++ records).



(** A file system that creates directories and takes the CSV catalog but
    refuses the JSON catalog. *)
Definition json_refused : World :=
  mk_world (λ _, Raised (mk_exn ConnectionError "connection refused"))
           (λ _, None)
           (λ path, if decide (path = json_outfile)
                    then Some (mk_exn PermissionError "Permission denied")
                    else None).

(** What the future of the unit at position [i] holds, whenever it runs. *)
Definition future_of (w : World) (main_column_name : string)
    (data_dict : DataDict) (i : nat)
  : option (string * outcome (option DataFrame)) :=
  (λ u : string * M (option DataFrame), (u.1, (u.2 fresh).1))
    <$> submit_all w main_column_name data_dict !! i.

(** The years of the merge scenario in the other order. *)
Definition years_sample_swapped : DataFrame :=
  mk_df ["Casting"; "Year"]
        [[Some "Snake"; Some "1969"]; [Some "Mongoose"; Some "1968"]].

(** A file system that cannot create directories. *)
Definition no_directories : World :=
  mk_world (λ _, Raised (mk_exn ConnectionError "connection refused"))
           (λ _, Some (mk_exn PermissionError "Permission denied"))
           (λ _, None).

(** The state in which the first batch of [main] starts, and the one in
    which the Catalog Merger starts after the batches left [st]. *)
Definition main_started (st : State) : State :=
  logged st [mk_log INFO "Starting multiprocessing pool."].

Definition merge_started (st : State) : State :=
  logged st [mk_log INFO "Creating combined CSV and JSON files..."].

(** The table of a batch, by the futures of the units in completion
    order. *)
Definition batch_table (w : World) (main_column_name : string)
    (data_dict : DataDict) (dict_key : string) (order : list nat)
  : DataFrame :=
  combine (tag dict_key
    <$> successes (omap (future_of w main_column_name data_dict) order)).

(** A world in which no page can be fetched: every GET raises an error. *)
Definition no_network (w : World) : Prop :=
  ∀ url, ∃ e, requests_get w url = Raised e ∧ isinstance e Exception = true.

(** * Verification *)

(** ** Orders *)

#[global] Instance cell_le_transitive : Transitive cell_le.
Proof.
  intros [x|] [y|] [z|]; simpl; try done. intros Hxy Hyz. by etrans.
Qed.

#[global] Instance cell_le_antisymm : AntiSymm (=) cell_le.
Proof.
  intros [x|] [y|]; simpl; try done.
  intros Hxy Hyx. f_equal. by apply (anti_symm String.le).
Qed.

#[global] Instance cell_le_total : Total cell_le.
Proof.
  intros [x|] [y|]; simpl; auto. apply (total String.le).
Qed.

#[global] Instance row_le_total df by_ : Total (row_le df by_).
Proof. intros r1 r2. unfold row_le. apply (total cell_le). Qed.

#[global] Instance entry_le_total : Total entry_le.
Proof. intros e1 e2. unfold entry_le. apply (total String.le). Qed.

#[global] Instance singleton_row_inj : Inj (=) (=) (λ v : string, [Some v]).
Proof. by intros v1 v2 [= ->]. Qed.

(** ** Removing duplicates *)

Section drop_dups.
Context {A : Type} `{EqDecision A}.
Implicit Types (l seen : list A).

Lemma elem_of_drop_dups seen l x :
  x ∈ drop_dups seen l ↔ x ∈ l ∧ x ∉ seen.
Proof.
  revert seen. induction l as [|y l IH]; intros seen; simpl.
  - split; [by intros ?%elem_of_nil | by intros [?%elem_of_nil _]].
  - destruct (decide (y ∈ seen)) as [Hy|Hy].
    + rewrite IH, elem_of_cons. split; [tauto|].
      intros [[->|?] ?]; tauto.
    + rewrite !elem_of_cons, IH, elem_of_cons. split.
      * intros [->|[? ?]]; tauto.
      * intros [[->|?] ?]; [tauto|]. destruct (decide (x = y)); tauto.
Qed.

Lemma NoDup_drop_dups seen l : NoDup (drop_dups seen l).
Proof.
  revert seen. induction l as [|y l IH]; intros seen; simpl.
  - constructor.
  - destruct (decide (y ∈ seen)); [apply IH|].
    constructor; [|apply IH].
    rewrite elem_of_drop_dups, elem_of_cons. tauto.
Qed.

Lemma drop_dups_sublist seen l : drop_dups seen l `sublist_of` l.
Proof.
  revert seen. induction l as [|y l IH]; intros seen; simpl; [done|].
  destruct (decide (y ∈ seen)).
  - by apply sublist_cons.
  - by apply sublist_skip.
Qed.

Lemma drop_dups_seen_ext seen1 seen2 l :
  (∀ x, x ∈ seen1 ↔ x ∈ seen2) → drop_dups seen1 l = drop_dups seen2 l.
Proof.
  revert seen1 seen2. induction l as [|y l IH]; intros s1 s2 Hs; simpl; [done|].
  destruct (decide (y ∈ s1)) as [H1|H1], (decide (y ∈ s2)) as [H2|H2];
    try (apply Hs in H1; done); try (apply Hs in H2; done).
  - by apply IH.
  - f_equal. apply IH. intros x. rewrite !elem_of_cons, Hs. done.
Qed.



Lemma drop_dups_NoDup seen l :
  NoDup l → (∀ x, x ∈ l → x ∉ seen) → drop_dups seen l = l.
Proof.
  revert seen. induction l as [|y l IH]; intros seen Hnd Hs; simpl; [done|].
  apply NoDup_cons in Hnd as [Hy Hnd].
  rewrite (decide_False (P := y ∈ seen)) by (apply Hs; left).
  f_equal. apply IH; [done|].
  intros x Hx. rewrite elem_of_cons. intros [->|Hin]; [done|].
  by apply (Hs x); [right|].
Qed.

End drop_dups.

Lemma drop_dups_fmap {A B} `{EqDecision A, EqDecision B} (f : A → B)
    `{!Inj (=) (=) f} (seen l : list A) :
  drop_dups (f <$> seen) (f <$> l) = f <$> drop_dups seen l.
Proof.
  revert seen. induction l as [|y l IH]; intros seen; simpl; [done|].
  destruct (decide (y ∈ seen)) as [Hy|Hy].
  - rewrite (decide_True (P := f y ∈ f <$> seen))
      by (by apply list_elem_of_fmap_2).
    apply IH.
  - rewrite (decide_False (P := f y ∈ f <$> seen))
      by (by intros ?%(list_elem_of_fmap_inj_2 f)).
    simpl. f_equal. apply (IH (y :: seen)).
Qed.

(** ** Stacking *)

Lemma stack_row_values (g : nat → nat) (i : nat) (r : Row) :
  (omap (λ jc : nat * Cell, (λ s, ((i, jc.1), s)) <$> jc.2)
        (imap (λ j (c : Cell), (g j, c)) r)).*2 = dropna r.
Proof.
  revert g. induction r as [|c r IH]; intros g; [done|].
  destruct c as [s|]; simpl; [f_equal|]; apply (IH (g ∘ S)).
Qed.

Lemma stack_values_from (g : nat → nat) (rs : list Row) :
  (mjoin (imap (λ i, stack_row (g i)) rs)).*2 = dropna (mjoin rs).
Proof.
  revert g. induction rs as [|r rs IH]; intros g; [done|].
  simpl. unfold dropna in *. rewrite fmap_app, omap_app. f_equal.
  - apply (stack_row_values id).
  - apply (IH (g ∘ S)).
Qed.

(** The stacked values are the cells that are not missing, row by row. *)
Lemma stack_values df :
  reset_index_drop (stack df) = dropna (mjoin (rows df)).
Proof. apply (stack_values_from id). Qed.

(** Where a stacked value comes from. *)
Lemma elem_of_stack df i j s :
  ((i, j), s) ∈ stack df ↔
  ∃ r, rows df !! i = Some r ∧ r !! j = Some (Some s).
Proof.
  unfold stack. rewrite list_elem_of_join. split.
  - intros (l & Hin & Hl).
    apply elem_of_lookup_imap in Hl as (i' & r & -> & Hr).
    apply list_elem_of_omap in Hin as ([j' c] & Hjc & Heq).
    apply elem_of_lookup_imap in Hjc as (j'' & c' & Hpair & Hc).
    destruct c as [s'|]; simplify_eq/=. eauto.
  - intros (r & Hr & Hj). exists (stack_row i r). split.
    + apply list_elem_of_omap. exists (j, Some s). split; [|done].
      by apply (elem_of_lookup_imap_2 pair).
    + by apply (elem_of_lookup_imap_2 stack_row).
Qed.

(** ** Frames of one column *)

Lemma get_loc_head c cols : get_loc c (c :: cols) = Some 0.
Proof. unfold get_loc. simpl. by rewrite decide_True. Qed.

Lemma cell_to_frame name s c : cell (to_frame name s) name [c] = c.
Proof. unfold cell. simpl. by rewrite get_loc_head. Qed.

Lemma sort_values_to_frame name s :
  sort_values name (to_frame name s) = to_frame name (merge_sort String.le s).
Proof.
  unfold sort_values. set (df := to_frame name s).
  set (L := merge_sort (row_le df name) (rows df)).
  change (mk_df [name] L = mk_df [name] ((λ v, [Some v]) <$> merge_sort String.le s)).
  f_equal.
  assert (HP : L ≡ₚ (λ v, [Some v]) <$> s) by apply merge_sort_Permutation.
  assert (Hshape : Forall (λ r, [cell df name r] = r) L).
  { rewrite HP. apply Forall_fmap, Forall_forall. intros v _. simpl.
    by rewrite (cell_to_frame name s). }
  assert (Hkeys : cell df name <$> L = Some <$> merge_sort String.le s).
  { apply (Sorted_unique cell_le).
    - apply (Sorted_fmap _ (row_le df name)); [done|].
      apply (Sorted_merge_sort _).
    - apply (Sorted_fmap _ String.le); [done|].
      apply (Sorted_merge_sort _).
    - rewrite HP, merge_sort_Permutation, <- list_fmap_compose.
      apply reflexive_eq, list_fmap_ext. intros _ v _. simpl.
      apply (cell_to_frame name s). }
  transitivity ((λ c : Cell, [c]) <$> (cell df name <$> L)).
  - rewrite <- list_fmap_compose. rewrite <- (list_fmap_id L) at 1.
    apply Forall_fmap_ext_1. eapply Forall_impl; [exact Hshape|].
    intros r Hr. simpl. by rewrite Hr.
  - by rewrite Hkeys, <- list_fmap_compose.
Qed.

Lemma replace_column_to_frame name m s :
  replace_column name m (to_frame name s)
  = to_frame name (replace_value m <$> s).
Proof.
  unfold replace_column. simpl. rewrite get_loc_head. unfold to_frame.
  f_equal. rewrite <- !list_fmap_compose. by apply list_fmap_ext.
Qed.

Lemma drop_duplicates_to_frame name s :
  drop_duplicates (to_frame name s) = to_frame name (drop_dups [] s).
Proof.
  unfold drop_duplicates, to_frame. simpl. f_equal.
  apply (drop_dups_fmap (λ v, [Some v]) []).
Qed.

Lemma clean_eq main_column_name df :
  clean main_column_name df = to_frame main_column_name (clean_values df).
Proof.
  unfold clean, clean_values.
  by rewrite stack_values, sort_values_to_frame, replace_column_to_frame,
    drop_duplicates_to_frame.
Qed.

(** ** The synonym table *)

Lemma rename_map_lookup k v :
  rename_map !! k = Some v ↔ (k, v) ∈ rename_items.
Proof.
  unfold rename_map. symmetry. apply elem_of_list_to_map.
  apply (bool_decide_unpack _). by vm_compute.
Qed.

(** The dictionary of the source is the table of the specification. *)
Lemma replace_value_canonical v :
  replace_value rename_map v = canonical_form v.
Proof.
  unfold replace_value, canonical_form.
  repeat (case_decide; [subst v; reflexivity|]).
  unfold rename_map.
  rewrite (not_elem_of_list_to_map_1 rename_items v); [done|].
  simpl. rewrite !elem_of_cons, elem_of_nil. tauto.
Qed.

Lemma canonical_form_idemp v :
  canonical_form (canonical_form v) = canonical_form v.
Proof.
  unfold canonical_form at 2.
  repeat (case_decide; [subst v; reflexivity|]). reflexivity.
Qed.

(** ** The specification's steps and the code's *)








(** ** Running [scrape_url] *)

Ltac run_M :=
  unfold mbind, M_bind, mret, M_ret, lift, raise, log_message,
    logger_exception, append_log, makedirs, write_file; simpl.

(** The [try] block by cases on what the world and the page give. *)
Lemma scrape_try_cases w url table_index outfile main_column_name st :
  let st0 := mk_state (files st) (dirs st)
               (log st ++ [mk_log INFO ("Fetching URL: " +:+ url)]) in
  match scrape_try w url table_index outfile main_column_name st with
  | (Returned out, st') =>
      ∃ df df',
        parsed_table w url table_index = Some df ∧
        special_handling outfile df = Returned df' ∧
        out = clean main_column_name df' ∧
        files st' = <[outfile := CsvOf out]> (files st)
  | (Raised e, st') =>
      files st' = files st ∧
      match requests_get w url with
      | Raised e0 => e = e0 ∧ st' = st0
      | Returned response =>
          match raise_for_status response with
          | Raised e0 => e = e0 ∧ st' = st0
          | Returned _ =>
              match find_table (text response) with
              | None => exn_class e = ValueError ∧ dirs st' = dirs st
              | Some table =>
                  match read_html table with
                  | Raised e0 => e = e0 ∧ st' = st0
                  | Returned tables =>
                      match getitem tables table_index with
                      | Raised e0 => e = e0 ∧ st' = st0
                      | Returned df =>
                          match special_handling outfile df with
                          | Raised e0 => e = e0 ∧ st' = st0
                          | Returned _ =>
                              makedirs_error w (dirname outfile) = Some e ∨
                              open_for_write w outfile = Some e
                          end
                      end
                  end
              end
          end
      end
  end.
Proof.
  unfold scrape_try, parsed_table. run_M.
  destruct (requests_get w url) as [response|e0]; simpl; [|done].
  destruct (raise_for_status response) as [[]|e0]; simpl; [|done].
  destruct (find_table (text response)) as [table|]; simpl; [|done].
  destruct (read_html table) as [tables|e0]; simpl; [|done].
  destruct (getitem tables table_index) as [df|e0]; simpl; [|done].
  destruct (special_handling outfile df) as [df'|e0] eqn:Hsp; simpl; [|done].
  destruct (makedirs_error w (dirname outfile)) as [e1|]; simpl; [auto|].
  destruct (open_for_write w outfile) as [e2|]; simpl; [auto|].
  by exists df, df'.
Qed.

Lemma raise_for_status_raised r e :
  raise_for_status r = Raised e → exn_class e = HTTPError.
Proof. unfold raise_for_status. case_match; by intros [= <-]. Qed.

Lemma read_html_raised t e :
  read_html t = Raised e → exn_class e = ValueError.
Proof. destruct t; simpl; [by intros [= <-]|done]. Qed.

Lemma getitem_raised {A} (l : list A) i e :
  getitem l i = Raised e → exn_class e = IndexError.
Proof. unfold getitem. repeat case_match; by intros [= <-]. Qed.

Lemma special_handling_raised outfile df e :
  special_handling outfile df = Raised e → exn_class e = IndexError.
Proof.
  unfold special_handling, iloc_set_column. repeat case_match; by intros [= <-].
Qed.

Lemma isinstance_class e c d :
  exn_class e = c → issubclass c d = true → isinstance e d = true.
Proof. unfold isinstance. by intros ->. Qed.

(** Under a world that raises errors only, so does the [try] block. *)
Lemma scrape_try_error w url table_index outfile main_column_name st e st' :
  world_raises_errors w →
  scrape_try w url table_index outfile main_column_name st = (Raised e, st') →
  isinstance e Exception = true.
Proof.
  intros (Hget & Hmk & Hopen) Htry.
  pose proof (scrape_try_cases w url table_index outfile main_column_name st)
    as Hc.
  rewrite Htry in Hc. simpl in Hc. destruct Hc as [_ Hc].
  destruct (requests_get w url) as [response|e0] eqn:Hr.
  2:{ destruct Hc as [-> _]. by eapply Hget. }
  destruct (raise_for_status response) as [[]|e0] eqn:Hs.
  2:{ destruct Hc as [-> _].
      by eapply isinstance_class; [eapply raise_for_status_raised|]. }
  destruct (find_table (text response)) as [table|].
  2:{ destruct Hc as [Hc _]. by eapply isinstance_class. }
  destruct (read_html table) as [tables|e0] eqn:Hh.
  2:{ destruct Hc as [-> _].
      by eapply isinstance_class; [eapply read_html_raised|]. }
  destruct (getitem tables table_index) as [df|e0] eqn:Hg.
  2:{ destruct Hc as [-> _].
      by eapply isinstance_class; [eapply getitem_raised|]. }
  destruct (special_handling outfile df) as [df'|e0] eqn:Hsp.
  2:{ destruct Hc as [-> _].
      by eapply isinstance_class; [eapply special_handling_raised|]. }
  destruct Hc as [Hc|Hc]; [|by eauto].
  unfold makedirs_error in Hc. case_decide; [by injection Hc as <-|by eauto].
Qed.

Lemma scrape_url_returned w url table_index outfile main_column_name st df st' :
  scrape_try w url table_index outfile main_column_name st
    = (Returned df, st') →
  scrape_url w url table_index outfile main_column_name st
    = (Returned (Some df), st').
Proof. unfold scrape_url. by intros ->. Qed.

Lemma scrape_url_handled w url table_index outfile main_column_name st e st' :
  scrape_try w url table_index outfile main_column_name st = (Raised e, st') →
  isinstance e Exception = true →
  scrape_url w url table_index outfile main_column_name st
    = (Returned None,
       mk_state (files st') (dirs st') (log st' ++ [handler_record url e])).
Proof.
  unfold scrape_url, handler_record. intros -> He.
  destruct (isinstance e RequestException); [done|].
  destruct (isinstance e ValueError); [done|].
  by rewrite He.
Qed.

(** [scrape_url] returns, whatever the page and the file system do. *)
Lemma scrape_url_total w url table_index outfile main_column_name st :
  world_raises_errors w →
  ∃ r st', scrape_url w url table_index outfile main_column_name st
           = (Returned r, st').
Proof.
  intros Hw.
  destruct (scrape_try w url table_index outfile main_column_name st)
    as [[df|e] st1] eqn:Htry.
  - eexists _, _. by apply scrape_url_returned.
  - eexists _, _. apply scrape_url_handled; [done|].
    by eapply scrape_try_error.
Qed.

Lemma scrape_url_some_inv w url table_index outfile main_column_name st out st' :
  scrape_url w url table_index outfile main_column_name st
    = (Returned (Some out), st') →
  scrape_try w url table_index outfile main_column_name st
    = (Returned out, st').
Proof.
  unfold scrape_url.
  destruct (scrape_try w url table_index outfile main_column_name st)
    as [[df|e] st1]; [by intros [= -> ->]|].
  repeat case_match; run_M; by intros [=].
Qed.

(** C5: under a world whose failures are errors, [scrape_url] returns: the
    frame when the [try] block succeeds, and None after any exception of
    the block, which is logged by one record and leaves the files as they
    were. *)
Theorem scrape_url_never_raises w url table_index outfile main_column_name st :
  world_raises_errors w →
  match scrape_try w url table_index outfile main_column_name st with
  | (Returned df, st1) =>
      scrape_url w url table_index outfile main_column_name st
        = (Returned (Some df), st1)
  | (Raised e, st1) =>
      scrape_url w url table_index outfile main_column_name st
        = (Returned None,
           mk_state (files st) (dirs st1) (log st1 ++ [handler_record url e]))
  end.
Proof.
  intros Hw.
  pose proof (scrape_try_cases w url table_index outfile main_column_name st)
    as Hc.
  destruct (scrape_try w url table_index outfile main_column_name st)
    as [[df|e] st1] eqn:Htry.
  - by apply scrape_url_returned.
  - simpl in Hc. destruct Hc as [<- _].
    apply scrape_url_handled; [done|]. by eapply scrape_try_error.
Qed.

Lemma scrape_url_never_raises_witness :
  world_raises_errors (read_only 200 [[names_table]]) ∧
  scrape_url (read_only 200 [[names_table]]) url_1968 0 csv_1968 "Casting"
             fresh
  = (Returned None,
     mk_state ∅ ∅
       [ mk_log INFO ("Fetching URL: " +:+ url_1968);
         mk_log ERROR ("Unexpected error processing " +:+ url_1968) ]).
Proof.
  assert (world_raises_errors (read_only 200 [[names_table]])) as Hw.
  { split_and!; intros ? e; simpl; intros [= <-]; reflexivity. }
  split; [exact Hw|].
  exact (scrape_url_never_raises (read_only 200 [[names_table]]) url_1968 0
           csv_1968 "Casting" fresh Hw).
Defined.



(** C8, as the code has it: a response whose status is a client or server
    error (400 to 599) makes [raise_for_status] raise HTTPError, a
    RequestException, so [scrape_url] logs the failed fetch and returns
    None without writing a file; any other status passes the check. *)
Theorem error_status_is_network_error w url table_index outfile
    main_column_name st response :
  requests_get w url = Returned response →
  ((400 ≤ status_code response < 600)%Z →
   ∃ e,
     isinstance e RequestException = true ∧
     scrape_url w url table_index outfile main_column_name st
       = (Returned None,
          mk_state (files st) (dirs st)
            (log st ++
               [ mk_log INFO ("Fetching URL: " +:+ url);
                 mk_log INFO ("Error fetching the URL " +:+ url +:+ ": "
                                +:+ exn_msg e) ]))) ∧
  (¬ (400 ≤ status_code response < 600)%Z →
   raise_for_status response = Returned tt).
Proof.
  intros Hget. split; intros Hstatus.
  - exists (mk_exn HTTPError "HTTP error"). split; [done|].
    unfold scrape_url, scrape_try. run_M. rewrite Hget. simpl.
    unfold raise_for_status.
    replace ((400 <=? status_code response)%Z
             && (status_code response <? 600)%Z) with true by lia.
    simpl. by rewrite <- (assoc_L (++)).
  - unfold raise_for_status.
    by replace ((400 <=? status_code response)%Z
                && (status_code response <? 600)%Z) with false by lia.
Qed.

Lemma error_status_is_network_error_witness :
  requests_get (serve 404 [[names_table]]) url_1968
    = Returned (mk_response 404 [[names_table]]) ∧
  ∃ e,
    isinstance e RequestException = true ∧
    scrape_url (serve 404 [[names_table]]) url_1968 0 csv_1968 "Casting" fresh
      = (Returned None,
         mk_state ∅ ∅
           [ mk_log INFO ("Fetching URL: " +:+ url_1968);
             mk_log INFO ("Error fetching the URL " +:+ url_1968 +:+ ": "
                            +:+ exn_msg e) ]).
Proof.
  split; [reflexivity|].
  apply (error_status_is_network_error (serve 404 [[names_table]]) url_1968 0
           csv_1968 "Casting" fresh (mk_response 404 [[names_table]])
           eq_refl).
  simpl. lia.
Defined.

(** C8 as stated fails: status 300 is outside the 2xx range, yet the page
    is processed like a success and its export is written. *)
Lemma status_300_is_processed :
  ¬ (200 ≤ status_code (mk_response 300 [[names_table]]) < 300)%Z ∧
  (scrape_url (serve 300 [[names_table]]) url_1968 0 csv_1968 "Casting"
              fresh).1
  = Returned (Some (mk_df ["Casting"] [[Some "Mongoose II"]; [Some "Snake"]])) ∧
  files (scrape_url (serve 300 [[names_table]]) url_1968 0 csv_1968 "Casting"
                    fresh).2 !! csv_1968
  = Some (CsvOf (mk_df ["Casting"] [[Some "Mongoose II"]; [Some "Snake"]])).
Proof. split_and!; [simpl; lia|by vm_compute..]. Qed.

(** C10: for an export path of the snake_mongoose unit, a parsed table with
    fewer than two columns makes the blanking raise IndexError; it is
    neither a RequestException nor a ValueError, so the last handler logs
    it as unexpected, None is returned and no file is written. *)
Theorem snake_mongoose_one_column w url table_index outfile main_column_name
    st df :
  parsed_table w url table_index = Some df →
  contains "snake_mongoose" outfile = true →
  length (columns df) < 2 →
  ∃ e st1,
    scrape_try w url table_index outfile main_column_name st
      = (Raised e, st1) ∧
    exn_class e = IndexError ∧
    scrape_url w url table_index outfile main_column_name st
      = (Returned None,
         mk_state (files st) (dirs st)
           (log st ++
              [ mk_log INFO ("Fetching URL: " +:+ url);
                mk_log ERROR ("Unexpected error processing " +:+ url) ])).
Proof.
  unfold parsed_table. intros Hparsed Hkey Hcols.
  unfold scrape_url, scrape_try. run_M.
  destruct (requests_get w url) as [response|]; [|done]. simpl.
  destruct (raise_for_status response) as [[]|]; [|done]. simpl.
  destruct (find_table (text response)) as [table|]; [|done]. simpl.
  destruct (read_html table) as [tables|]; [|done]. simpl.
  destruct (getitem tables table_index) as [df0|]; [|done]. simpl.
  injection Hparsed as ->.
  unfold special_handling, iloc_set_column. rewrite Hkey.
  rewrite decide_False by lia. simpl.
  eexists _, _. split_and!; [done..|]. by rewrite <- (assoc_L (++)).
Qed.

Lemma snake_mongoose_one_column_witness :
  parsed_table (serve 200 [[names_table]]) url_snake_mongoose 0
    = Some names_table ∧
  contains "snake_mongoose" snake_mongoose_csv = true ∧
  length (columns names_table) < 2 ∧
  ∃ e st1,
    scrape_try (serve 200 [[names_table]]) url_snake_mongoose 0
               snake_mongoose_csv "Casting" fresh = (Raised e, st1) ∧
    exn_class e = IndexError ∧
    scrape_url (serve 200 [[names_table]]) url_snake_mongoose 0
               snake_mongoose_csv "Casting" fresh
      = (Returned None,
         mk_state (files fresh) (dirs fresh)
           (log fresh ++
              [ mk_log INFO ("Fetching URL: " +:+ url_snake_mongoose);
                mk_log ERROR
                  ("Unexpected error processing " +:+ url_snake_mongoose) ])).
Proof.
  split_and!; [reflexivity|reflexivity|simpl; lia|].
  apply (snake_mongoose_one_column (serve 200 [[names_table]])
           url_snake_mongoose 0 snake_mongoose_csv "Casting" fresh
           names_table); [reflexivity|reflexivity|simpl; lia].
Defined.

(** ** The blanked second column *)





Lemma elem_of_clean_values df v :
  v ∈ clean_values df ↔ ∃ i j s, ((i, j), s) ∈ stack df ∧ v = canonical_form s.
Proof.
  unfold clean_values.
  rewrite elem_of_drop_dups, list_elem_of_fmap.
  setoid_rewrite merge_sort_Permutation.
  rewrite <- stack_values. unfold reset_index_drop.
  setoid_rewrite list_elem_of_fmap.
  setoid_rewrite replace_value_canonical. split.
  - intros [(s & -> & [[i j] s'] & -> & Hin) _]. eauto.
  - intros (i & j & s & Hin & ->). split; [|apply not_elem_of_nil].
    exists s. split; [done|]. by exists ((i, j), s).
Qed.




(** ** Normalising twice *)

Lemma clean_values_fixed df v :
  v ∈ clean_values df → replace_value rename_map v = v.
Proof.
  rewrite elem_of_clean_values. intros (i & j & s & _ & ->).
  rewrite replace_value_canonical. apply canonical_form_idemp.
Qed.

Lemma NoDup_clean_values df : NoDup (clean_values df).
Proof. apply NoDup_drop_dups. Qed.

Lemma values_to_frame name (s : list string) :
  dropna (mjoin (rows (to_frame name s))) = s.
Proof. induction s as [|v s IH]; simpl; [done|]. by f_equal. Qed.

Lemma fmap_fixed {A} (f : A → A) (l : list A) :
  (∀ x, x ∈ l → f x = x) → f <$> l = l.
Proof.
  intros Hf. rewrite <- (list_fmap_id l) at 2.
  apply Forall_fmap_ext_1, Forall_forall. intros x Hx. by apply Hf.
Qed.

Lemma clean_values_again name df :
  clean_values (to_frame name (clean_values df))
  = merge_sort String.le (clean_values df).
Proof.
  unfold clean_values at 1. rewrite values_to_frame.
  rewrite fmap_fixed.
  - apply drop_dups_NoDup; [|intros x _; apply not_elem_of_nil].
    rewrite merge_sort_Permutation. apply NoDup_clean_values.
  - intros v Hv. rewrite merge_sort_Permutation in Hv.
    by eapply clean_values_fixed.
Qed.

(** C9, as the code has it: normalising the output of the Normalizer keeps
    its names, each unchanged by the rewriting and none removed, but sorts
    them again; the result is the same sequence when the output was in
    ascending order. *)
Theorem renormalizing_sorts_again (main_column_name : string) (df : DataFrame) :
  let out := clean main_column_name df in
  clean main_column_name out = sort_values main_column_name out ∧
  rows (clean main_column_name out) ≡ₚ rows out ∧
  replace_column main_column_name rename_map out = out ∧
  drop_duplicates out = out ∧
  (Sorted String.le (clean_values df) → clean main_column_name out = out).
Proof.
  cbv zeta. rewrite !clean_eq, clean_values_again, sort_values_to_frame.
  rewrite replace_column_to_frame, drop_duplicates_to_frame.
  split_and!.
  - done.
  - unfold to_frame. cbn [rows]. by rewrite merge_sort_Permutation.
  - f_equal. apply fmap_fixed, clean_values_fixed.
  - f_equal. apply drop_dups_NoDup; [apply NoDup_clean_values|].
    intros x _. apply not_elem_of_nil.
  - intros Hsorted. f_equal. apply (Sorted_unique String.le); [|done|].
    + apply (Sorted_merge_sort _).
    + apply merge_sort_Permutation.
Qed.

(** C9 as stated fails: the output for this table is not in ascending
    order, and normalising it again gives another sequence. *)
Lemma renormalizing_reorders :
  clean "Casting" dragster_table
  = mk_df ["Casting"] [[Some "Snake II"]; [Some "Snake Dragster"]] ∧
  clean "Casting" (clean "Casting" dragster_table)
  = mk_df ["Casting"] [[Some "Snake Dragster"]; [Some "Snake II"]].
Proof. split; by vm_compute. Qed.

(** ** The Catalog Merger *)

(** C2: when the columns of the two tables together lack the name column,
    "Year" or "Series", [create_combined_csv_file] returns normally after
    logging the mismatch, and leaves every file and directory as it was. *)
Theorem missing_columns_skip w main_column_name all_years_df all_series_df st :
  ¬ (expected_columns main_column_name
       ⊆ combined_columns all_years_df all_series_df) →
  create_combined_csv_file w main_column_name all_years_df all_series_df st
  = (Returned tt,
     mk_state (files st) (dirs st)
       (log st ++
          [mk_log INFO
             "Missing expected columns. Skipping CSV and JSON creation."])).
Proof.
  intros Hmiss. unfold create_combined_csv_file.
  by rewrite decide_False.
Qed.

Lemma missing_columns_skip_witness :
  ¬ (expected_columns "Casting"
       ⊆ combined_columns years_unlabelled series_sample) ∧
  create_combined_csv_file (serve 200 []) "Casting" years_unlabelled
                           series_sample fresh
  = (Returned tt,
     mk_state ∅ ∅
       [mk_log INFO
          "Missing expected columns. Skipping CSV and JSON creation."]).
Proof.
  assert (¬ (expected_columns "Casting"
               ⊆ combined_columns years_unlabelled series_sample)) as Hmiss.
  { by apply (bool_decide_unpack _). }
  split; [exact Hmiss|].
  exact (missing_columns_skip (serve 200 []) "Casting" years_unlabelled
           series_sample fresh Hmiss).
Defined.

Lemma sorted_set_ascending l : ascending (sorted_set l).
Proof.
  split.
  - apply (Sorted_merge_sort _).
  - unfold sorted_set. rewrite merge_sort_Permutation. apply NoDup_elements.
Qed.

Lemma elem_of_sorted_set l x : x ∈ sorted_set l ↔ x ∈ l.
Proof.
  unfold sorted_set.
  by rewrite merge_sort_Permutation, elem_of_elements, elem_of_list_to_set.
Qed.

Lemma get_loc_Some c cols i : get_loc c cols = Some i → cols !! i = Some c.
Proof.
  unfold get_loc. destruct (list_find _ cols) as [[j x]|] eqn:Hfind; [|done].
  intros [= <-]. by apply list_find_Some in Hfind as (? & -> & _).
Qed.

Lemma get_loc_None c cols : get_loc c cols = None → c ∉ cols.
Proof.
  unfold get_loc. destruct (list_find _ cols) as [[j x]|] eqn:Hfind; [done|].
  intros _ Hin. apply list_find_None in Hfind.
  by eapply Forall_forall in Hfind.
Qed.

(** A row of a frame, seen under the columns [cols], keeps its cells. *)
Lemma cell_reindex cols rs df r c :
  c ∈ cols →
  cell (mk_df cols rs) c ((λ c', cell df c' r) <$> cols) = cell df c r.
Proof.
  intros Hin. unfold cell at 1. simpl.
  destruct (get_loc c cols) as [i|] eqn:Hloc.
  - apply get_loc_Some in Hloc. by rewrite list_lookup_fmap, Hloc.
  - by apply get_loc_None in Hloc.
Qed.

Lemma elem_of_union_columns dfs c :
  c ∈ union_columns dfs ↔ ∃ df, df ∈ dfs ∧ c ∈ columns df.
Proof.
  unfold union_columns.
  rewrite elem_of_drop_dups, list_elem_of_join.
  setoid_rewrite list_elem_of_fmap. split.
  - intros [(l & Hc & df & -> & Hdf) _]. eauto.
  - intros (df & Hdf & Hc). split; [eauto|apply not_elem_of_nil].
Qed.

Lemma elem_of_rows_concat dfs r' :
  r' ∈ rows (concat dfs) ↔
  ∃ df r, df ∈ dfs ∧ r ∈ rows df ∧
          r' = (λ c, cell df c r) <$> union_columns dfs.
Proof.
  unfold concat. cbn [rows]. rewrite list_elem_of_join.
  setoid_rewrite list_elem_of_fmap. unfold reindex. split.
  - intros (l & Hr' & df & -> & Hdf).
    apply list_elem_of_fmap in Hr' as (r & -> & Hr). eauto.
  - intros (df & r & Hdf & Hr & ->). eexists. split; [|eauto].
    apply list_elem_of_fmap. eauto.
Qed.

Lemma concat_labelled dfs by_ c n v :
  by_ ∈ union_columns dfs → c ∈ union_columns dfs →
  labelled (concat dfs) by_ n c v ↔ ∃ df, df ∈ dfs ∧ labelled df by_ n c v.
Proof.
  intros Hby Hc. unfold labelled.
  setoid_rewrite elem_of_rows_concat. split.
  - intros (r' & (df & r & Hdf & Hr & ->) & Hn & Hv).
    unfold concat in Hn, Hv. rewrite cell_reindex in Hn, Hv by done.
    exists df. split; [done|]. by exists r.
  - intros (df & Hdf & r & Hr & Hn & Hv).
    exists ((λ c, cell df c r) <$> union_columns dfs).
    unfold concat. rewrite !cell_reindex by done.
    split; [|done]. by exists df, r.
Qed.

Lemma concat_named dfs by_ n :
  by_ ∈ union_columns dfs →
  named (concat dfs) by_ n ↔ ∃ df, df ∈ dfs ∧ named df by_ n.
Proof.
  intros Hby. unfold named.
  setoid_rewrite elem_of_rows_concat. split.
  - intros (r' & (df & r & Hdf & Hr & ->) & Hn).
    unfold concat in Hn. rewrite cell_reindex in Hn by done.
    exists df. split; [done|]. by exists r.
  - intros (df & Hdf & r & Hr & Hn).
    exists ((λ c, cell df c r) <$> union_columns dfs).
    unfold concat. rewrite !cell_reindex by done.
    split; [|done]. by exists df, r.
Qed.

Lemma elem_of_group_keys df by_ k : k ∈ group_keys df by_ ↔ named df by_ k.
Proof.
  unfold group_keys, named, dropna.
  rewrite elem_of_sorted_set, list_elem_of_omap.
  setoid_rewrite list_elem_of_fmap. split.
  - intros (c & (r & -> & Hr) & Hk). by exists r.
  - intros (r & Hr & Hk). exists (Some k). split; [|done]. by exists r.
Qed.

Lemma elem_of_agg_column df by_ k c v :
  v ∈ agg_column df c (get_group df by_ k) ↔ labelled df by_ k c v.
Proof.
  unfold agg_column, get_group, labelled, dropna.
  rewrite elem_of_sorted_set, list_elem_of_omap.
  setoid_rewrite list_elem_of_fmap.
  setoid_rewrite list_elem_of_filter. split.
  - intros (x & (r & -> & Hk & Hr) & Hv). by exists r.
  - intros (r & Hr & Hk & Hv). exists (Some v). split; [|done]. by exists r.
Qed.

Lemma exists_pair {A} (P : A → Prop) (a b : A) :
  (∃ x, x ∈ [a; b] ∧ P x) ↔ P a ∨ P b.
Proof.
  split.
  - intros (x & Hx & HP).
    apply elem_of_cons in Hx as [->|Hx]; [by left|].
    apply list_elem_of_singleton in Hx as ->. by right.
  - intros [HP|HP]; eexists; (split; [|exact HP]).
    + by left.
    + right. by left.
Qed.



Lemma create_combined_csv_file_writes w main_column_name years series out st :
  expected_columns main_column_name ⊆ combined_columns years series →
  merged_table main_column_name years series = Returned out →
  accepts_catalog w →
  create_combined_csv_file w main_column_name years series st
  = (Returned tt,
     mk_state
       (<[json_outfile := CatalogJson out]>
          (<[csv_outfile := CatalogCsv out]> (files st)))
       ({[dirname csv_outfile]} ∪ dirs st)
       (log st ++
          [ mk_log INFO ("CSV saved to " +:+ csv_outfile +:+ ".");
            mk_log INFO ("JSON saved to " +:+ json_outfile +:+ ".") ])).
Proof.
  intros Hsub Hout (Hmk & Hcsv & Hjson). unfold create_combined_csv_file.
  rewrite decide_True by done. run_M. unfold merged_table in Hout.
  destruct (groupby_agg _ _) as [all_df|]; [|done]. injection Hout as <-.
  simpl.
  unfold makedirs_error. rewrite decide_False by done.
  rewrite Hmk. simpl. rewrite Hcsv. simpl. rewrite Hjson. simpl.
  by rewrite <- (assoc_L (++)).
Qed.



(** The merge scenario of the specification. *)
Example merge_scenario :
  merged_table "Casting" years_sample series_sample
  = Returned (mk_catalog "Casting"
      [ mk_entry "Mongoose" ["1968"] ["classics"];
        mk_entry "Snake" ["1969"] [] ]).
Proof. by vm_compute. Qed.

(** ** The Batch Orchestrator *)

Lemma drop_dups_app {A} `{EqDecision A} (seen l1 l2 : list A) :
  drop_dups seen (l1 ++ l2)
  = drop_dups seen l1 ++ drop_dups (reverse l1 ++ seen) l2.
Proof.
  revert seen. induction l1 as [|x l1 IH]; intros seen; [done|].
  rewrite reverse_cons. simpl.
  destruct (decide (x ∈ seen)) as [Hx|Hx].
  - rewrite IH. f_equal. apply drop_dups_seen_ext. intros y.
    rewrite !elem_of_app, list_elem_of_singleton. split.
    + intros [?|?]; auto.
    + intros [[?| ->]|?]; auto.
  - simpl. f_equal. rewrite IH. f_equal. by rewrite <- (assoc_L (++)).
Qed.

Lemma drop_dups_all_seen {A} `{EqDecision A} (seen l : list A) :
  (∀ x, x ∈ l → x ∈ seen) → drop_dups seen l = [].
Proof.
  induction l as [|x l IH]; intros Hl; simpl; [done|].
  rewrite decide_True by (apply Hl; left).
  apply IH. intros y Hy. apply Hl. by right.
Qed.

Lemma union_columns_same cols df dfs :
  NoDup cols → Forall (λ df', columns df' = cols) (df :: dfs) →
  union_columns (df :: dfs) = cols.
Proof.
  intros Hnd Hall. apply Forall_cons in Hall as [Hdf Hdfs].
  unfold union_columns. simpl. rewrite Hdf, drop_dups_app.
  rewrite drop_dups_NoDup; [|done|intros x _; apply not_elem_of_nil].
  rewrite drop_dups_all_seen; [apply (right_id_L [] (++))|].
  intros c Hc. apply list_elem_of_join in Hc as (l & Hc & Hl).
  apply list_elem_of_fmap in Hl as (df' & -> & Hdf').
  rewrite Forall_forall in Hdfs. rewrite (Hdfs df' Hdf') in Hc.
  by rewrite (right_id_L [] (++)), elem_of_reverse.
Qed.

Lemma tag_to_frame dict_key main_column_name label vs :
  main_column_name ≠ dict_key →
  tag dict_key (label, to_frame main_column_name vs)
  = mk_df [main_column_name; dict_key] ((λ v, [Some v; Some label]) <$> vs).
Proof.
  intros Hne. unfold tag, assign_column, get_loc. simpl.
  rewrite decide_False by done. simpl.
  by rewrite <- list_fmap_compose.
Qed.

Lemma tagged_rows_to_frame main_column_name label vs :
  tagged_rows (label, to_frame main_column_name vs)
  = (λ v, [Some v; Some label]) <$> vs.
Proof. unfold tagged_rows. simpl. by rewrite <- list_fmap_compose. Qed.

Lemma reindex_tagged dict_key main_column_name label vs :
  main_column_name ≠ dict_key →
  reindex [main_column_name; dict_key]
          (tag dict_key (label, to_frame main_column_name vs))
  = tagged_rows (label, to_frame main_column_name vs).
Proof.
  intros Hne. rewrite tag_to_frame, tagged_rows_to_frame by done.
  unfold reindex. cbn [rows]. rewrite <- list_fmap_compose.
  apply list_fmap_ext. intros _ v _. unfold cell, get_loc. simpl.
  rewrite (decide_True (P := main_column_name = main_column_name)) by done.
  rewrite (decide_False (P := main_column_name = dict_key)) by done.
  rewrite (decide_True (P := dict_key = dict_key)) by done.
  done.
Qed.

Lemma concat_tagged dict_key main_column_name us :
  main_column_name ≠ dict_key → us ≠ [] →
  Forall (λ u, ∃ vs, u.2 = to_frame main_column_name vs) us →
  concat (tag dict_key <$> us)
  = mk_df [main_column_name; dict_key] (mjoin (tagged_rows <$> us)).
Proof.
  intros Hne Hus Hall. unfold concat.
  assert (Hcols : union_columns (tag dict_key <$> us)
                  = [main_column_name; dict_key]).
  { destruct us as [|u us]; [done|]. rewrite fmap_cons.
    apply union_columns_same.
    - apply NoDup_cons. split; [by intros ->%list_elem_of_singleton|].
      apply NoDup_singleton.
    - rewrite <- fmap_cons. apply Forall_fmap.
      eapply Forall_impl; [exact Hall|].
      intros [label df] [vs Hdf]. simpl in *. subst df.
      by rewrite tag_to_frame. }
  rewrite Hcols. f_equal. f_equal. rewrite <- list_fmap_compose.
  apply Forall_fmap_ext_1. eapply Forall_impl; [exact Hall|].
  intros [label df] [vs Hdf]. simpl in *. subst df.
  by apply reindex_tagged.
Qed.

Lemma combine_tagged dict_key main_column_name us :
  main_column_name ≠ dict_key →
  Forall (λ u, ∃ vs, u.2 = to_frame main_column_name vs) us →
  rows (combine (tag dict_key <$> us)) = mjoin (tagged_rows <$> us).
Proof.
  intros Hne Hall. destruct us as [|u us]; [done|].
  unfold combine. rewrite fmap_cons, <- fmap_cons.
  by rewrite (concat_tagged dict_key main_column_name).
Qed.

Lemma collect_returned dict_key (completed : list Future) all_df :
  Forall (λ f, ∃ r, f.2 = Returned r) completed →
  collect dict_key completed all_df
  = (all_df ++ (tag dict_key <$> successes completed), None).
Proof.
  revert all_df.
  induction completed as [|[label o] completed IH]; intros all_df Hall.
  - simpl. by rewrite (right_id_L [] (++)).
  - apply Forall_cons in Hall as [[r Hr] Hall]. simpl in Hr. subst o.
    destruct r as [df|]; simpl.
    + rewrite IH by done. by rewrite <- (assoc_L (++)).
    + by apply IH.
Qed.

Lemma gather_returned dict_key (completed : list Future) st :
  Forall (λ f, ∃ r, f.2 = Returned r) completed →
  gather dict_key completed st
  = (Returned (combine (tag dict_key <$> successes completed)), st).
Proof.
  intros Hall. unfold gather. by rewrite collect_returned.
Qed.

Lemma successes_none (completed : list Future) :
  Forall (λ f, f.2 = Returned None) completed → successes completed = [].
Proof.
  induction 1 as [|[label o] completed Ho _ IH]; [done|].
  simpl in Ho. subst o. done.
Qed.

(** What the futures of a batch hold under a world that raises errors
    only: a returned value, and when it is a frame, a frame of names. *)
Lemma run_pool_results w main_column_name data_dict order st :
  world_raises_errors w →
  Forall (λ f : Future,
            ∃ r, f.2 = Returned r ∧
                 ∀ df, r = Some df → ∃ vs, df = to_frame main_column_name vs)
         (run_pool (submit_all w main_column_name data_dict) order st).1.
Proof.
  intros Hw. revert st. induction order as [|i order IH]; intros st; simpl.
  - constructor.
  - destruct (submit_all w main_column_name data_dict !! i)
      as [[label task]|] eqn:Hu; [|apply IH].
    unfold submit_all in Hu. rewrite list_lookup_fmap in Hu.
    destruct (zip _ _ !! i) as [[label' table_index]|]; simplify_eq/=.
    set (url := BASE_URL +:+ "/" +:+ label +:+ ".html").
    set (outfile := OUTPUT_DIR +:+ "/hotwheels-" +:+ label +:+ ".csv").
    destruct (scrape_url_total w url table_index outfile main_column_name st Hw)
      as (r & st' & Hrun).
    rewrite Hrun. specialize (IH st').
    destruct (run_pool _ order st') as [done_ st'']. simpl in *.
    constructor; [|done]. exists r. split; [done|].
    intros df ->. apply scrape_url_some_inv in Hrun.
    pose proof (scrape_try_cases w url table_index outfile main_column_name st)
      as Hc.
    rewrite Hrun in Hc. destruct Hc as (df0 & df' & _ & _ & -> & _).
    eexists. apply clean_eq.
Qed.

Lemma successes_frames main_column_name (completed : list Future) :
  Forall (λ f : Future,
            ∃ r, f.2 = Returned r ∧
                 ∀ df, r = Some df → ∃ vs, df = to_frame main_column_name vs)
         completed →
  Forall (λ u, ∃ vs, u.2 = to_frame main_column_name vs) (successes completed).
Proof.
  induction 1 as [|[label o] completed (r & Hr & Hdf) _ IH]; [constructor|].
  simpl in Hr. subst o. destruct r as [df|]; simpl; [|done].
  constructor; [|done]. by apply Hdf.
Qed.

(** C7: under a world that raises errors only, [create_csv_files] returns
    the table made of the units that did not return None: its rows are, in
    completion order, the names of each such unit with the unit's label,
    and nothing else; when every unit returned None it is the empty frame,
    which has no row. *)
Theorem failed_units_are_skipped w main_column_name data_dict dict_key order
    st :
  world_raises_errors w →
  ∃ completed st1,
    executor w main_column_name data_dict order (batch_started dict_key st)
      = (Returned completed, st1) ∧
    create_csv_files w main_column_name data_dict dict_key order st
      = (Returned (combine (tag dict_key <$> successes completed)), st1) ∧
    (main_column_name ≠ dict_key →
     rows (combine (tag dict_key <$> successes completed))
       = mjoin (tagged_rows <$> successes completed)) ∧
    (Forall (λ f : Future, f.2 = Returned None) completed →
     create_csv_files w main_column_name data_dict dict_key order st
       = (Returned empty_frame, st1) ∧
     rows empty_frame = []).
Proof.
  intros Hw.
  pose proof (run_pool_results w main_column_name data_dict order
                (batch_started dict_key st) Hw) as Hres.
  unfold create_csv_files, executor. run_M.
  fold (batch_started dict_key st).
  destruct (run_pool _ order (batch_started dict_key st))
    as [completed st1]. simpl in Hres.
  assert (Hret : Forall (λ f : Future, ∃ r, f.2 = Returned r) completed).
  { eapply Forall_impl; [exact Hres|]. intros f (r & Hr & _). eauto. }
  exists completed, st1. rewrite gather_returned by done.
  split_and!; [done|done| |].
  - intros Hne. apply (combine_tagged dict_key main_column_name); [done|].
    by apply successes_frames.
  - intros Hnone. by rewrite successes_none.
Qed.

Lemma failed_units_are_skipped_witness :
  world_raises_errors only_1968 ∧
  ∃ completed st1,
    executor only_1968 "Casting" create_years_dict (seq 0 10)
             (batch_started "Year" fresh)
      = (Returned completed, st1) ∧
    create_csv_files only_1968 "Casting" create_years_dict "Year" (seq 0 10)
                     fresh
      = (Returned (combine (tag "Year" <$> successes completed)), st1) ∧
    ("Casting" ≠ "Year" →
     rows (combine (tag "Year" <$> successes completed))
       = mjoin (tagged_rows <$> successes completed)) ∧
    (Forall (λ f : Future, f.2 = Returned None) completed →
     create_csv_files only_1968 "Casting" create_years_dict "Year" (seq 0 10)
                      fresh
       = (Returned empty_frame, st1) ∧
     rows empty_frame = []).
Proof.
  assert (Hw : world_raises_errors only_1968).
  { split_and!; intros ? e; simpl; [|done..].
    case_decide; intros [= <-]. reflexivity. }
  split; [exact Hw|].
  exact (failed_units_are_skipped only_1968 "Casting" create_years_dict
           "Year" (seq 0 10) fresh Hw).
Defined.

(** One unit of ten succeeds: the table holds its rows and no other. *)
Example batch_with_failures :
  (create_csv_files only_1968 "Casting" create_years_dict "Year" (seq 0 10)
                    fresh).1
  = Returned (mk_df ["Casting"; "Year"]
                [ [Some "Mongoose II"; Some "1968"];
                  [Some "Snake"; Some "1968"] ]).
Proof. by vm_compute. Qed.

(** Every unit fails: the empty frame. *)
Example batch_all_failed :
  (create_csv_files offline "Casting" create_series_dict "Series" (seq 0 7)
                    fresh).1
  = Returned empty_frame.
Proof. by vm_compute. Qed.

(** ** The whole run *)

Lemma clean_wf main_column_name df : wf (clean main_column_name df).
Proof.
  rewrite clean_eq. split; simpl.
  - apply NoDup_singleton.
  - apply Forall_fmap, Forall_forall. by intros v _.
Qed.

Example json_outfile_path : json_outfile = "output/reports/redlines.json".
Proof. reflexivity. Qed.

(** The handlers of [scrape_url] stop at [Exception]: an interrupt is not
    a failure of the unit and goes through. *)
Example interrupt_goes_through :
  (scrape_url interrupted url_1968 0 csv_1968 "Casting" fresh).1
  = Raised (mk_exn KeyboardInterrupt "").
Proof. reflexivity. Qed.

(** Every page holds the one-column table of names: the unit of 1970,
    which asks for a second logical table, and the unit of snake_mongoose,
    which has no second column to blank, return None; the catalog is made
    of the fifteen others. *)
Example main_writes_catalog :
  files (main (serve 200 [[names_table]]) (seq 0 10) (seq 0 7) fresh).2
    !! json_outfile
  = Some (CatalogJson (mk_catalog "Casting"
      [ mk_entry "Mongoose II"
          ["1968"; "1969"; "1971"; "1972"; "1973"; "1974"; "1975"; "1976";
           "1977"]
          ["classics"; "customs"; "gran_prix"; "heavyweights"; "spoilers";
           "super_chromes"];
        mk_entry "Snake"
          ["1968"; "1969"; "1971"; "1972"; "1973"; "1974"; "1975"; "1976";
           "1977"]
          ["classics"; "customs"; "gran_prix"; "heavyweights"; "spoilers";
           "super_chromes"] ])).
Proof. by vm_compute. Qed.

(** Only the page of 1968 answers: the series batch returns the empty
    frame, the columns lack "Series", and the run ends normally without a
    catalog. *)
Example main_skips_catalog :
  (main only_1968 (seq 0 10) (seq 0 7) fresh).1 = Returned tt ∧
  files (main only_1968 (seq 0 10) (seq 0 7) fresh).2 !! csv_outfile = None ∧
  files (main only_1968 (seq 0 10) (seq 0 7) fresh).2 !! json_outfile = None ∧
  files (main only_1968 (seq 0 10) (seq 0 7) fresh).2 !! csv_1968
  = Some (CsvOf (mk_df ["Casting"] [[Some "Mongoose II"]; [Some "Snake"]])).
Proof. split_and!; by vm_compute. Qed.

(** An export path without directory, as in the unit tests: the directory
    cannot be created, the unit returns None and writes nothing. *)
Example export_without_directory :
  (scrape_url (serve 200 [[names_table]]) url_1968 0 "dummy.csv" "Casting"
              fresh).1 = Returned None ∧
  files (scrape_url (serve 200 [[names_table]]) url_1968 0 "dummy.csv"
                    "Casting" fresh).2 = ∅.
Proof. split; reflexivity. Qed.

(** * Further properties of the code *)

(** ** One unit: [scrape_url] *)

(** What [scrape_url] does to the files, in every case. *)
Lemma scrape_url_files w url table_index outfile main_column_name st :
  let run := scrape_url w url table_index outfile main_column_name st in
  (run.1 = Returned None ∧ files run.2 = files st) ∨
  (∃ e, run.1 = Raised e ∧ files run.2 = files st) ∨
  (∃ out, run.1 = Returned (Some out) ∧
          files run.2 = <[outfile := CsvOf out]> (files st)).
Proof.
  cbv zeta.
  pose proof (scrape_try_cases w url table_index outfile main_column_name st)
    as Hc.
  unfold scrape_url.
  destruct (scrape_try w url table_index outfile main_column_name st)
    as [[out|e] st1].
  - destruct Hc as (df & df' & _ & _ & _ & Hfiles). right. right. eauto.
  - simpl in Hc. destruct Hc as [Hfiles _]. run_M.
    repeat case_match; simpl; eauto.
Qed.



Lemma scrape_url_touches_files w url table_index outfile main_column_name st
    path :
  path ≠ outfile →
  files (scrape_url w url table_index outfile main_column_name st).2 !! path
  = files st !! path.
Proof.
  intros Hne.
  destruct (scrape_url_files w url table_index outfile main_column_name st)
    as [[_ Hf]|[(e & _ & Hf)|(out & Hr & Hf)]]; rewrite Hf; [done..|].
  by rewrite lookup_insert_ne.
Qed.

(** X2: whatever the world does, [scrape_url] leaves every file other than
    its export as it was; it changes the export only when it returns a
    frame, and then the export holds that frame. *)
Theorem scrape_url_touches_only_outfile w url table_index outfile
    main_column_name st :
  let run := scrape_url w url table_index outfile main_column_name st in
  (∀ path, path ≠ outfile → files run.2 !! path = files st !! path) ∧
  (files run.2 = files st ∨
   ∃ out, run.1 = Returned (Some out) ∧
          files run.2 = <[outfile := CsvOf out]> (files st)).
Proof.
  cbv zeta.
  destruct (scrape_url_files w url table_index outfile main_column_name st)
    as [[_ Hf]|[(e & _ & Hf)|(out & Hr & Hf)]]; rewrite Hf.
  - by split; [|left].
  - by split; [|left].
  - split; [|right; by exists out].
    intros path Hne. by rewrite lookup_insert_ne.
Qed.

(** ** The cleaned frame *)




Lemma ascending_unique l1 l2 :
  ascending l1 → ascending l2 → (∀ x, x ∈ l1 ↔ x ∈ l2) → l1 = l2.
Proof.
  intros [Hs1 Hn1] [Hs2 Hn2] Hmem.
  apply (Sorted_unique String.le); [done..|]. by apply NoDup_Permutation.
Qed.


(** X4: the names of the cleaned frame are exactly the canonical forms of
    the values the table holds, in any column and row: none is invented and
    none is lost. *)
Theorem clean_names_exact (main_column_name : string) (df : DataFrame)
    (v : string) :
  [Some v] ∈ rows (clean main_column_name df) ↔
  ∃ i j r s, rows df !! i = Some r ∧ r !! j = Some (Some s) ∧
             v = canonical_form s.
Proof.
  rewrite clean_eq. unfold to_frame. cbn [rows].
  rewrite (list_elem_of_fmap_inj (λ v, [Some v])), elem_of_clean_values.
  setoid_rewrite elem_of_stack. split.
  - intros (i & j & s & (r & Hr & Hj) & ->). by exists i, j, r, s.
  - intros (i & j & r & s & Hr & Hj & ->). exists i, j, s.
    split; [|done]. by exists r.
Qed.






(** ** The table index and the special handling *)

Lemma getitem_out_of_range {A} (l : list A) (i : Z) :
  (Z.of_nat (length l) ≤ i ∨ i < - Z.of_nat (length l))%Z →
  getitem l i = Raised (mk_exn IndexError "list index out of range").
Proof.
  intros Hi. unfold getitem. cbv zeta.
  destruct (i <? 0)%Z eqn:Hneg;
    (destruct (_ && _) eqn:Hin; [exfalso; lia|done]).
Qed.

(** X7: when the table element yields fewer logical tables than
    [table_index] asks for (or the index is below minus their number),
    [scrape_url] logs an unexpected error and returns None; nothing is
    written and no directory is created. *)
Theorem table_index_out_of_range w url table_index outfile main_column_name
    st response table tables :
  requests_get w url = Returned response →
  raise_for_status response = Returned tt →
  find_table (text response) = Some table →
  read_html table = Returned tables →
  (Z.of_nat (length tables) ≤ table_index ∨
   table_index < - Z.of_nat (length tables))%Z →
  scrape_url w url table_index outfile main_column_name st
  = (Returned None,
     logged st [ mk_log INFO ("Fetching URL: " +:+ url);
                 mk_log ERROR ("Unexpected error processing " +:+ url) ]).
Proof.
  intros Hget Hstatus Hfind Hread Hindex.
  unfold scrape_url, scrape_try. run_M.
  rewrite Hget. simpl. rewrite Hstatus. simpl. rewrite Hfind. simpl.
  rewrite Hread. simpl. rewrite getitem_out_of_range by done. simpl.
  unfold logged. by rewrite <- (assoc_L (++)).
Qed.

Lemma table_index_out_of_range_witness :
  requests_get (serve 200 [[names_table]]) (page_url "1970")
    = Returned (mk_response 200 [[names_table]]) ∧
  raise_for_status (mk_response 200 [[names_table]]) = Returned tt ∧
  find_table (text (mk_response 200 [[names_table]])) = Some [names_table] ∧
  read_html [names_table] = Returned [names_table] ∧
  (Z.of_nat (length [names_table]) ≤ 1 ∨
   1 < - Z.of_nat (length [names_table]))%Z ∧
  scrape_url (serve 200 [[names_table]]) (page_url "1970") 1
             (export_path "1970") "Casting" fresh
  = (Returned None,
     logged fresh
       [ mk_log INFO ("Fetching URL: " +:+ page_url "1970");
         mk_log ERROR ("Unexpected error processing " +:+ page_url "1970") ]).
Proof.
  assert (Hindex : (Z.of_nat (length [names_table]) ≤ 1 ∨
                    1 < - Z.of_nat (length [names_table]))%Z).
  { left. simpl. lia. }
  split_and!; [reflexivity..|exact Hindex|].
  exact (table_index_out_of_range (serve 200 [[names_table]])
           (page_url "1970") 1 (export_path "1970") "Casting" fresh
           (mk_response 200 [[names_table]]) [names_table] [names_table]
           eq_refl eq_refl eq_refl eq_refl Hindex).
Defined.

Lemma prefix_append n a c :
  String.prefix n a = true → String.prefix n (a +:+ c) = true.
Proof.
  revert a. induction n as [|x n IH]; intros [|y a]; simpl; try done.
  - by destruct c.
  - destruct (ascii_dec x y); [apply IH|done].
Qed.

Lemma contains_append_l n a c :
  contains n a = true → contains n (a +:+ c) = true.
Proof.
  induction a as [|y a IH]; simpl.
  - rewrite orb_false_r. destruct n; [|done]. intros _. by destruct c.
  - intros [Hp|Hc]%orb_true_iff; apply orb_true_iff.
    + left. by apply (prefix_append n (String y a) c).
    + right. by apply IH.
Qed.

Lemma contains_append_r n a b :
  contains n b = true → contains n (a +:+ b) = true.
Proof.
  intros Hb. induction a as [|y a IH]; simpl; [done|].
  rewrite IH. apply orb_true_r.
Qed.

(** X8: the special handling is decided by the text of the export path,
    not by the label being "snake_mongoose": for every label that contains
    that text, the second column of the unit's table is blanked (and the
    unit fails when there is none). *)
Theorem special_handling_by_substring (label : string) (df : DataFrame) :
  contains "snake_mongoose" label = true →
  special_handling (export_path label) df = iloc_set_column df 1 None.
Proof.
  intros Hlabel. unfold special_handling, export_path.
  rewrite contains_append_r; [done|].
  by apply contains_append_r, contains_append_l.
Qed.

Lemma special_handling_by_substring_witness :
  contains "snake_mongoose" "snake_mongoose_2" = true ∧
  special_handling (export_path "snake_mongoose_2") rivals_table
  = iloc_set_column rivals_table 1 None.
Proof.
  split; [reflexivity|].
  exact (special_handling_by_substring "snake_mongoose_2" rivals_table
           eq_refl).
Defined.

(** ** Export paths *)

Lemma list_ascii_of_append a b :
  list_ascii_of_string (a +:+ b)
  = list_ascii_of_string a ++ list_ascii_of_string b.
Proof. induction a as [|x a IH]; simpl; [done|]. by rewrite IH. Qed.

Lemma append_inj_r a1 a2 b : a1 +:+ b = a2 +:+ b → a1 = a2.
Proof.
  intros Heq. apply (f_equal list_ascii_of_string) in Heq.
  rewrite !list_ascii_of_append in Heq. apply app_inv_tail in Heq.
  rewrite <- (string_of_list_ascii_of_string a1).
  rewrite <- (string_of_list_ascii_of_string a2). by rewrite Heq.
Qed.

Lemma export_path_inj label1 label2 :
  export_path label1 = export_path label2 → label1 = label2.
Proof.
  unfold export_path. intros Heq.
  apply (inj (String.append OUTPUT_DIR)) in Heq.
  apply (inj (String.append "/hotwheels-")) in Heq.
  by apply append_inj_r in Heq.
Qed.

Lemma export_path_not_catalog label :
  export_path label ≠ csv_outfile ∧ export_path label ≠ json_outfile.
Proof.
  split; intros Heq; apply (inj (String.append OUTPUT_DIR)) in Heq;
    discriminate Heq.
Qed.

(** X9: two different labels never share an export path, and no label's
    export is one of the two catalog files. *)
Theorem export_paths_distinct (label1 label2 : string) :
  label1 ≠ label2 →
  export_path label1 ≠ export_path label2 ∧
  export_path label1 ≠ csv_outfile ∧
  export_path label1 ≠ json_outfile.
Proof.
  intros Hne. split; [|apply export_path_not_catalog].
  by intros ?%export_path_inj.
Qed.

Lemma export_paths_distinct_witness :
  ("1968" ≠ "1969") ∧
  export_path "1968" ≠ export_path "1969" ∧
  export_path "1968" ≠ csv_outfile ∧
  export_path "1968" ≠ json_outfile.
Proof.
  assert (Hne : "1968" ≠ "1969") by done.
  split; [exact Hne|].
  exact (export_paths_distinct "1968" "1969" Hne).
Defined.

Lemma drop_while_app_all {A} (p : A → bool) (l1 l2 : list A) :
  forallb p l1 = true → drop_while p (l1 ++ l2) = drop_while p l2.
Proof.
  induction l1 as [|x l1 IH]; simpl; [done|].
  intros [-> Hl1]%andb_true_iff. by apply IH.
Qed.

Lemma forallb_rev {A} (p : A → bool) (l : list A) :
  forallb p (rev l) = forallb p l.
Proof.
  induction l as [|x l IH]; simpl; [done|].
  rewrite forallb_app, IH. simpl. rewrite andb_true_r. apply andb_comm.
Qed.

Lemma dirname_export_path_free (label : string) :
  slash_free label → dirname (export_path label) = OUTPUT_DIR.
Proof.
  unfold slash_free. intros Hfree.
  change (export_path label)
    with ("output/reports/" +:+ ("hotwheels-" +:+ label +:+ ".csv")).
  unfold dirname. cbv zeta. rewrite list_ascii_of_append, rev_app_distr.
  rewrite drop_while_app_all.
  - reflexivity.
  - rewrite forallb_rev, !list_ascii_of_append, !forallb_app, Hfree.
    reflexivity.
Qed.

(** X10: for a label without slash, the directory of the export path is
    [OUTPUT_DIR]: every unit of a batch exports into the same directory. *)
Theorem dirname_export_path (label : string) :
  slash_free label → dirname (export_path label) = OUTPUT_DIR.
Proof. apply dirname_export_path_free. Qed.

Lemma dirname_export_path_witness :
  slash_free "snake_mongoose" ∧
  dirname (export_path "snake_mongoose") = OUTPUT_DIR.
Proof.
  split; [reflexivity|].
  exact (dirname_export_path "snake_mongoose" eq_refl).
Defined.

(** ** Gathering the futures *)

Lemma collect_app dict_key (pre rest : list Future) all_df :
  Forall (λ f, ∃ r, f.2 = Returned r) pre →
  collect dict_key (pre ++ rest) all_df
  = collect dict_key rest (all_df ++ (tag dict_key <$> successes pre)).
Proof.
  revert all_df. induction pre as [|[label o] pre IH]; intros all_df Hall.
  - simpl. by rewrite (right_id_L [] (++)).
  - apply Forall_cons in Hall as [[r Hr] Hall]. simpl in Hr. subst o.
    destruct r as [df|]; simpl.
    + rewrite IH by done. by rewrite <- (assoc_L (++)).
    + by apply IH.
Qed.

(** X11: when the result of a future raises, the loop over the completed
    futures stops there: for an error the table is made of the units
    gathered before it, the later ones are dropped even when they
    succeeded, and one record is logged; any other exception is raised. *)
Theorem gather_stops_at_error dict_key (pre post : list Future) label e st :
  Forall (λ f, ∃ r, f.2 = Returned r) pre →
  gather dict_key (pre ++ (label, Raised e) :: post) st
  = if isinstance e Exception
    then (Returned (combine (tag dict_key <$> successes pre)),
          logged st [mk_log INFO "Error occurred during CSV creation."])
    else (Raised e, st).
Proof.
  intros Hpre. unfold gather. rewrite collect_app by done. simpl.
  by destruct (isinstance e Exception).
Qed.

Lemma gather_stops_at_error_witness :
  Forall (λ f : Future, ∃ r, f.2 = Returned r)
         [("1968", Returned (Some (to_frame "Casting" ["Snake"])));
          ("1969", Returned None)] ∧
  gather "Year"
    ([("1968", Returned (Some (to_frame "Casting" ["Snake"])));
      ("1969", Returned None)]
     ++ ("1970", Raised (mk_exn ValueError "boom"))
     :: [("1971", Returned (Some (to_frame "Casting" ["Mongoose"])))]) fresh
  = (Returned (mk_df ["Casting"; "Year"] [[Some "Snake"; Some "1968"]]),
     logged fresh [mk_log INFO "Error occurred during CSV creation."]).
Proof.
  assert (Hpre : Forall (λ f : Future, ∃ r, f.2 = Returned r)
                   [("1968", Returned (Some (to_frame "Casting" ["Snake"])));
                    ("1969", Returned None)]).
  { repeat constructor; eexists; reflexivity. }
  split; [exact Hpre|].
  exact (gather_stops_at_error "Year" _
           [("1971", Returned (Some (to_frame "Casting" ["Mongoose"])))]
           "1970" (mk_exn ValueError "boom") fresh Hpre).
Defined.

(** ** The footprint of a batch *)

Lemma scrape_url_dirs w url table_index outfile main_column_name st :
  let run := scrape_url w url table_index outfile main_column_name st in
  dirs run.2 = dirs st ∨ dirs run.2 = {[dirname outfile]} ∪ dirs st.
Proof.
  cbv zeta. unfold scrape_url, scrape_try. run_M.
  destruct (requests_get w url) as [response|]; simpl;
    [|repeat case_match; simpl; auto].
  destruct (raise_for_status response) as [[]|]; simpl;
    [|repeat case_match; simpl; auto].
  destruct (find_table (text response)) as [table|]; simpl; [|auto].
  destruct (read_html table) as [tables|]; simpl;
    [|repeat case_match; simpl; auto].
  destruct (getitem tables table_index) as [df|]; simpl;
    [|repeat case_match; simpl; auto].
  destruct (special_handling outfile df) as [df'|]; simpl;
    [|repeat case_match; simpl; auto].
  destruct (makedirs_error w (dirname outfile)) as [e|]; simpl;
    [repeat case_match; simpl; auto|].
  destruct (open_for_write w outfile) as [e|]; simpl;
    [repeat case_match; simpl; auto|auto].
Qed.

Lemma submit_all_lookup w main_column_name data_dict i label task :
  submit_all w main_column_name data_dict !! i = Some (label, task) →
  label ∈ dict_labels data_dict ∧
  ∃ table_index,
    task = scrape_url w (page_url label) table_index (export_path label)
                      main_column_name.
Proof.
  unfold submit_all. rewrite list_lookup_fmap. intros Hu.
  destruct (zip _ _ !! i) as [[label' table_index]|] eqn:Hz; simplify_eq/=.
  split; [|by exists table_index].
  apply list_elem_of_lookup_2 in Hz.
  by apply elem_of_zip_l in Hz.
Qed.

Lemma run_pool_footprint w main_column_name data_dict order st :
  let st' := (run_pool (submit_all w main_column_name data_dict) order st).2 in
  (∀ path, (∀ label, label ∈ dict_labels data_dict →
                     path ≠ export_path label) →
           files st' !! path = files st !! path) ∧
  (Forall slash_free (dict_labels data_dict) →
   dirs st' ⊆ {[OUTPUT_DIR]} ∪ dirs st).
Proof.
  cbv zeta. revert st. induction order as [|i order IH]; intros st; simpl.
  - split; [done|]. intros _. apply union_subseteq_r.
  - destruct (submit_all w main_column_name data_dict !! i)
      as [[label task]|] eqn:Hu; [|apply IH].
    apply submit_all_lookup in Hu as (Hlabel & table_index & ->).
    pose proof (scrape_url_touches_files w (page_url label) table_index
                  (export_path label) main_column_name st) as Hfiles.
    pose proof (scrape_url_dirs w (page_url label) table_index
                  (export_path label) main_column_name st) as Hdirs.
    cbv zeta in Hdirs.
    destruct (scrape_url w (page_url label) table_index (export_path label)
                main_column_name st) as [r st1].
    specialize (IH st1) as [IHf IHd].
    destruct (run_pool _ order st1) as [done_ st2]. simpl in *. split.
    + intros path Hpath. rewrite IHf by done. apply Hfiles.
      by apply Hpath.
    + intros Hfree. specialize (IHd Hfree).
      assert (dirname (export_path label) = OUTPUT_DIR) as Hdir.
      { apply dirname_export_path_free.
        by eapply Forall_forall in Hfree. }
      rewrite Hdir in Hdirs.
      destruct Hdirs as [Hd|Hd]; rewrite Hd in IHd; [done|].
      by rewrite (assoc_L (∪)), (idemp_L (∪) _) in IHd.
Qed.

Lemma gather_state dict_key (completed : list Future) st :
  files (gather dict_key completed st).2 = files st ∧
  dirs (gather dict_key completed st).2 = dirs st.
Proof.
  unfold gather. destruct (collect dict_key completed []) as [all_df [e|]].
  - destruct (isinstance e Exception); by run_M.
  - by run_M.
Qed.

(** X12: a batch changes no file other than the exports of its labels, so
    never a catalog file; and when its labels have no slash, the only
    directory it can create is [OUTPUT_DIR]. *)
Theorem batch_footprint w main_column_name data_dict dict_key order st :
  let st' :=
    (create_csv_files w main_column_name data_dict dict_key order st).2 in
  (∀ path, (∀ label, label ∈ dict_labels data_dict →
                     path ≠ export_path label) →
           files st' !! path = files st !! path) ∧
  files st' !! csv_outfile = files st !! csv_outfile ∧
  files st' !! json_outfile = files st !! json_outfile ∧
  (Forall slash_free (dict_labels data_dict) →
   dirs st' ⊆ {[OUTPUT_DIR]} ∪ dirs st).
Proof.
  cbv zeta.
  pose proof (run_pool_footprint w main_column_name data_dict order
                (batch_started dict_key st)) as Hpool.
  cbv zeta in Hpool. unfold create_csv_files, executor. run_M.
  fold (batch_started dict_key st).
  destruct (run_pool _ order (batch_started dict_key st))
    as [completed st1].
  destruct (gather_state dict_key completed st1) as [Hgf Hgd].
  simpl in *. rewrite Hgf, Hgd. destruct Hpool as [Hfiles Hdirs].
  split_and!; [done| | |done].
  - apply Hfiles. intros label _ Heq. symmetry in Heq.
    by apply export_path_not_catalog in Heq.
  - apply Hfiles. intros label _ Heq. symmetry in Heq.
    by apply export_path_not_catalog in Heq.
Qed.

(** ** The completion order *)

Lemma scrape_url_result_state w url table_index outfile main_column_name
    st st' :
  (scrape_url w url table_index outfile main_column_name st).1
  = (scrape_url w url table_index outfile main_column_name st').1.
Proof.
  unfold scrape_url, scrape_try. run_M.
  destruct (requests_get w url) as [response|]; simpl;
    [|by repeat case_match].
  destruct (raise_for_status response) as [[]|]; simpl;
    [|by repeat case_match].
  destruct (find_table (text response)) as [table|]; simpl; [|done].
  destruct (read_html table) as [tables|]; simpl; [|by repeat case_match].
  destruct (getitem tables table_index) as [df|]; simpl;
    [|by repeat case_match].
  destruct (special_handling outfile df) as [df'|]; simpl;
    [|by repeat case_match].
  destruct (makedirs_error w (dirname outfile)) as [e|]; simpl;
    [by repeat case_match|].
  destruct (open_for_write w outfile) as [e|]; simpl;
    [by repeat case_match|done].
Qed.

Lemma run_pool_futures w main_column_name data_dict order st :
  (run_pool (submit_all w main_column_name data_dict) order st).1
  = omap (future_of w main_column_name data_dict) order.
Proof.
  revert st. induction order as [|i order IH]; intros st; simpl; [done|].
  unfold future_of at 1.
  destruct (submit_all w main_column_name data_dict !! i)
    as [[label task]|] eqn:Hu; simpl; [|apply IH].
  apply submit_all_lookup in Hu as (_ & table_index & ->).
  rewrite (scrape_url_result_state w (page_url label) table_index
             (export_path label) main_column_name fresh st).
  destruct (scrape_url w (page_url label) table_index (export_path label)
              main_column_name st) as [r st1].
  specialize (IH st1). destruct (run_pool _ order st1) as [done_ st2].
  simpl in *. by rewrite IH.
Qed.

Lemma create_csv_files_value w main_column_name data_dict dict_key order st :
  world_raises_errors w →
  (create_csv_files w main_column_name data_dict dict_key order st).1
  = Returned (combine (tag dict_key
       <$> successes (omap (future_of w main_column_name data_dict) order))).
Proof.
  intros Hw.
  pose proof (run_pool_results w main_column_name data_dict order
                (batch_started dict_key st) Hw) as Hres.
  pose proof (run_pool_futures w main_column_name data_dict order
                (batch_started dict_key st)) as Hfut.
  unfold create_csv_files, executor. run_M.
  fold (batch_started dict_key st).
  destruct (run_pool _ order (batch_started dict_key st))
    as [completed st1]. simpl in *. subst completed.
  rewrite gather_returned; [done|].
  eapply Forall_impl; [exact Hres|]. intros f (r & Hr & _). eauto.
Qed.

Lemma futures_frames w main_column_name data_dict order :
  world_raises_errors w →
  Forall (λ u, ∃ vs, u.2 = to_frame main_column_name vs)
         (successes (omap (future_of w main_column_name data_dict) order)).
Proof.
  intros Hw. apply successes_frames.
  rewrite <- (run_pool_futures w main_column_name data_dict order fresh).
  by apply run_pool_results.
Qed.

Lemma combine_tagged_frame dict_key main_column_name us :
  main_column_name ≠ dict_key → us ≠ [] →
  Forall (λ u, ∃ vs, u.2 = to_frame main_column_name vs) us →
  combine (tag dict_key <$> us)
  = mk_df [main_column_name; dict_key] (mjoin (tagged_rows <$> us)).
Proof.
  intros Hne Hus Hall. rewrite <- (concat_tagged dict_key) by done.
  by destruct us.
Qed.

Lemma combine_tagged_perm dict_key main_column_name us us' :
  main_column_name ≠ dict_key → us ≡ₚ us' →
  Forall (λ u, ∃ vs, u.2 = to_frame main_column_name vs) us →
  columns (combine (tag dict_key <$> us))
  = columns (combine (tag dict_key <$> us')) ∧
  rows (combine (tag dict_key <$> us))
  ≡ₚ rows (combine (tag dict_key <$> us')).
Proof.
  intros Hne Hperm Hall.
  assert (Hall' : Forall (λ u, ∃ vs, u.2 = to_frame main_column_name vs) us')
    by (by rewrite <- Hperm).
  destruct (decide (us = [])) as [->|Hus].
  - apply Permutation_nil_l in Hperm as ->. done.
  - assert (us' ≠ []) as Hus'.
    { intros ->. by apply Permutation_nil_r in Hperm. }
    rewrite !(combine_tagged_frame dict_key main_column_name) by done.
    split; [done|]. cbn [rows]. by rewrite Hperm.
Qed.

(** X13: the table of a batch does not depend on the order in which its
    units complete, up to the order of its rows: two completion orders
    that are permutations of each other give the same columns and the same
    rows, whatever the states the batches start from. *)
Theorem batch_order_independent w main_column_name data_dict dict_key
    order order' st st' :
  world_raises_errors w →
  main_column_name ≠ dict_key →
  order ≡ₚ order' →
  ∃ T T',
    (create_csv_files w main_column_name data_dict dict_key order st).1
      = Returned T ∧
    (create_csv_files w main_column_name data_dict dict_key order' st').1
      = Returned T' ∧
    columns T = columns T' ∧
    rows T ≡ₚ rows T'.
Proof.
  intros Hw Hne Hperm. eexists _, _.
  rewrite !create_csv_files_value by done. split_and!; [done..| |].
  - apply (combine_tagged_perm dict_key main_column_name); [done| |].
    + unfold successes. by rewrite Hperm.
    + by apply futures_frames.
  - apply (combine_tagged_perm dict_key main_column_name); [done| |].
    + unfold successes. by rewrite Hperm.
    + by apply futures_frames.
Qed.

Lemma batch_order_independent_witness :
  world_raises_errors (serve 200 [[names_table]]) ∧
  "Casting" ≠ "Series" ∧
  seq 0 7 ≡ₚ rev (seq 0 7) ∧
  ∃ T T',
    (create_csv_files (serve 200 [[names_table]]) "Casting"
       create_series_dict "Series" (seq 0 7) fresh).1 = Returned T ∧
    (create_csv_files (serve 200 [[names_table]]) "Casting"
       create_series_dict "Series" (rev (seq 0 7)) fresh).1 = Returned T' ∧
    columns T = columns T' ∧
    rows T ≡ₚ rows T'.
Proof.
  assert (Hw : world_raises_errors (serve 200 [[names_table]])).
  { split_and!; intros ? e; simpl; done. }
  assert (Hne : "Casting" ≠ "Series") by done.
  assert (Hperm : seq 0 7 ≡ₚ rev (seq 0 7)) by apply Permutation_rev.
  split_and!; [exact Hw|exact Hne|exact Hperm|].
  exact (batch_order_independent (serve 200 [[names_table]]) "Casting"
           create_series_dict "Series" (seq 0 7) (rev (seq 0 7)) fresh fresh
           Hw Hne Hperm).
Defined.

(** ** The catalog and the order of its inputs *)

Lemma get_loc_not_elem c cols : c ∉ cols → get_loc c cols = None.
Proof.
  intros Hc. destruct (get_loc c cols) as [i|] eqn:Hloc; [|done].
  apply get_loc_Some, list_elem_of_lookup_2 in Hloc. done.
Qed.

Lemma cell_reindex_out cols rs r c :
  c ∉ cols → cell (mk_df cols rs) c r = None.
Proof. intros Hc. unfold cell. simpl. by rewrite get_loc_not_elem. Qed.

Lemma concat_labelled_iff dfs by_ c n v :
  labelled (concat dfs) by_ n c v ↔
  by_ ∈ union_columns dfs ∧ c ∈ union_columns dfs ∧
  ∃ df, df ∈ dfs ∧ labelled df by_ n c v.
Proof.
  destruct (decide (by_ ∈ union_columns dfs)) as [Hby|Hby].
  - destruct (decide (c ∈ union_columns dfs)) as [Hc|Hc].
    + rewrite concat_labelled by done. tauto.
    + split; [|tauto]. intros (r & _ & _ & Hv).
      unfold concat in Hv. by rewrite cell_reindex_out in Hv.
  - split; [|tauto]. intros (r & _ & Hn & _).
    unfold concat in Hn. by rewrite cell_reindex_out in Hn.
Qed.

Lemma concat_named_iff dfs by_ n :
  named (concat dfs) by_ n ↔
  by_ ∈ union_columns dfs ∧ ∃ df, df ∈ dfs ∧ named df by_ n.
Proof.
  destruct (decide (by_ ∈ union_columns dfs)) as [Hby|Hby].
  - rewrite concat_named by done. tauto.
  - split; [|tauto]. intros (r & _ & Hn).
    unfold concat in Hn. by rewrite cell_reindex_out in Hn.
Qed.

Lemma groupby_agg_ext main_column_name df df' :
  (∀ n, named df main_column_name n ↔ named df' main_column_name n) →
  (∀ n c v, labelled df main_column_name n c v
            ↔ labelled df' main_column_name n c v) →
  groupby_agg main_column_name df = groupby_agg main_column_name df'.
Proof.
  intros Hnamed Hlabelled. unfold groupby_agg. case_decide; [done|].
  do 2 f_equal.
  assert (group_keys df main_column_name = group_keys df' main_column_name)
    as <-.
  { apply ascending_unique; [apply sorted_set_ascending..|].
    intros n. by rewrite !elem_of_group_keys. }
  apply list_fmap_ext. intros _ k _. cbv zeta.
  f_equal; (apply ascending_unique; [apply sorted_set_ascending..|]);
    intros v; by rewrite !elem_of_agg_column.
Qed.

Lemma merged_table_ext main_column_name y s y' s' :
  (∀ c, c ∈ union_columns [y; s] ↔ c ∈ union_columns [y'; s']) →
  (∀ n, named y main_column_name n ∨ named s main_column_name n
        ↔ named y' main_column_name n ∨ named s' main_column_name n) →
  (∀ n c v, labelled y main_column_name n c v
            ∨ labelled s main_column_name n c v
            ↔ labelled y' main_column_name n c v
              ∨ labelled s' main_column_name n c v) →
  merged_table main_column_name y s = merged_table main_column_name y' s'.
Proof.
  intros Hcols Hnamed Hlabelled. unfold merged_table. cbv zeta.
  rewrite (groupby_agg_ext main_column_name (concat [y; s]) (concat [y'; s']));
    [done| |].
  - intros n. rewrite !concat_named_iff, Hcols.
    rewrite (exists_pair (λ df, named df main_column_name n)).
    rewrite (exists_pair (λ df, named df main_column_name n)).
    by rewrite Hnamed.
  - intros n c v. rewrite !concat_labelled_iff, !Hcols.
    rewrite (exists_pair (λ df, labelled df main_column_name n c v)).
    rewrite (exists_pair (λ df, labelled df main_column_name n c v)).
    by rewrite Hlabelled.
Qed.

Lemma labelled_perm df df' by_ n c v :
  columns df = columns df' → rows df ≡ₚ rows df' →
  labelled df by_ n c v ↔ labelled df' by_ n c v.
Proof.
  intros Hcols Hrows. unfold labelled, cell. rewrite Hcols.
  by setoid_rewrite Hrows.
Qed.

Lemma named_perm df df' by_ n :
  columns df = columns df' → rows df ≡ₚ rows df' →
  named df by_ n ↔ named df' by_ n.
Proof.
  intros Hcols Hrows. unfold named, cell. rewrite Hcols.
  by setoid_rewrite Hrows.
Qed.

Lemma merged_table_perm (main_column_name : string)
    (y y' s s' : DataFrame) :
  columns y = columns y' → rows y ≡ₚ rows y' →
  columns s = columns s' → rows s ≡ₚ rows s' →
  merged_table main_column_name y s = merged_table main_column_name y' s'.
Proof.
  intros Hyc Hyr Hsc Hsr. apply merged_table_ext.
  - intros c. rewrite !elem_of_union_columns.
    rewrite (exists_pair (λ df, c ∈ columns df)).
    rewrite (exists_pair (λ df, c ∈ columns df)).
    by rewrite Hyc, Hsc.
  - intros n. by rewrite (named_perm y y'), (named_perm s s').
  - intros n c v. by rewrite (labelled_perm y y'), (labelled_perm s s').
Qed.

(** X14: the merged table does not depend on the order of the rows of its
    two inputs. *)
Theorem merged_table_row_order (main_column_name : string)
    (y y' s s' : DataFrame) :
  columns y = columns y' → rows y ≡ₚ rows y' →
  columns s = columns s' → rows s ≡ₚ rows s' →
  merged_table main_column_name y s = merged_table main_column_name y' s'.
Proof. apply merged_table_perm. Qed.

Lemma merged_table_row_order_witness :
  columns years_sample = columns years_sample_swapped ∧
  rows years_sample ≡ₚ rows years_sample_swapped ∧
  columns series_sample = columns series_sample ∧
  rows series_sample ≡ₚ rows series_sample ∧
  merged_table "Casting" years_sample series_sample
  = merged_table "Casting" years_sample_swapped series_sample.
Proof.
  assert (Hyr : rows years_sample ≡ₚ rows years_sample_swapped)
    by apply Permutation_swap.
  assert (Hsr : rows series_sample ≡ₚ rows series_sample) by done.
  split_and!; [reflexivity|exact Hyr|reflexivity|exact Hsr|].
  exact (merged_table_row_order "Casting" years_sample years_sample_swapped
           series_sample series_sample eq_refl Hyr eq_refl Hsr).
Defined.

(** X15: the merged table is the same when the two inputs change places:
    nothing in it records which table a year or a series came from. *)
Theorem merged_table_comm (main_column_name : string) (y s : DataFrame) :
  merged_table main_column_name y s = merged_table main_column_name s y.
Proof.
  apply merged_table_ext.
  - intros c. rewrite !elem_of_union_columns.
    rewrite (exists_pair (λ df, c ∈ columns df)).
    rewrite (exists_pair (λ df, c ∈ columns df)). tauto.
  - intros n. tauto.
  - intros n c v. tauto.
Qed.

(** ** The Catalog Merger and the file system *)

Lemma groupby_agg_returned main_column_name df :
  main_column_name ∉ ["Year"; "Series"] →
  ∃ all_df, groupby_agg main_column_name df = Returned all_df.
Proof.
  intros Hmain. unfold groupby_agg. rewrite decide_False by done. eauto.
Qed.

(** X16: the Catalog Merger does not catch the errors of the file system.
    When the directory of the catalog cannot be created, it raises that
    error and leaves the state as it was. *)
Theorem merger_directory_error w main_column_name all_years_df all_series_df
    st e :
  expected_columns main_column_name
    ⊆ combined_columns all_years_df all_series_df →
  main_column_name ∉ ["Year"; "Series"] →
  os_makedirs w (dirname csv_outfile) = Some e →
  create_combined_csv_file w main_column_name all_years_df all_series_df st
  = (Raised e, st).
Proof.
  intros Hsub Hmain Hmk. unfold create_combined_csv_file.
  rewrite decide_True by done. run_M.
  destruct (groupby_agg_returned main_column_name
              (concat [all_years_df; all_series_df]) Hmain) as (all_df & ->).
  simpl. unfold makedirs_error. rewrite decide_False by done.
  by rewrite Hmk.
Qed.

Lemma merger_directory_error_witness :
  expected_columns "Casting" ⊆ combined_columns years_sample series_sample ∧
  ("Casting" ∉ ["Year"; "Series"]) ∧
  os_makedirs no_directories (dirname csv_outfile)
    = Some (mk_exn PermissionError "Permission denied") ∧
  create_combined_csv_file no_directories "Casting" years_sample
                           series_sample fresh
  = (Raised (mk_exn PermissionError "Permission denied"), fresh).
Proof.
  assert (Hsub : expected_columns "Casting"
                   ⊆ combined_columns years_sample series_sample).
  { by apply (bool_decide_unpack _). }
  assert (Hmain : "Casting" ∉ ["Year"; "Series"]).
  { by apply (bool_decide_unpack _). }
  split_and!; [exact Hsub|exact Hmain|reflexivity|].
  exact (merger_directory_error no_directories "Casting" years_sample
           series_sample fresh _ Hsub Hmain eq_refl).
Defined.

(** X17: the two catalog files are not written together.  When the CSV
    file is accepted and the JSON file is refused, the Catalog Merger
    raises the error of the JSON file after the CSV file was written and
    its record logged: the CSV catalog stays, without its JSON twin. *)
Theorem merger_partial_write w main_column_name all_years_df all_series_df
    st e :
  expected_columns main_column_name
    ⊆ combined_columns all_years_df all_series_df →
  main_column_name ∉ ["Year"; "Series"] →
  os_makedirs w (dirname csv_outfile) = None →
  open_for_write w csv_outfile = None →
  open_for_write w json_outfile = Some e →
  ∃ out,
    merged_table main_column_name all_years_df all_series_df = Returned out ∧
    create_combined_csv_file w main_column_name all_years_df all_series_df st
    = (Raised e,
       mk_state (<[csv_outfile := CatalogCsv out]> (files st))
                ({[dirname csv_outfile]} ∪ dirs st)
                (log st ++
                   [mk_log INFO ("CSV saved to " +:+ csv_outfile +:+ ".")])).
Proof.
  intros Hsub Hmain Hmk Hcsv Hjson.
  unfold create_combined_csv_file, merged_table.
  rewrite decide_True by done. run_M.
  destruct (groupby_agg_returned main_column_name
              (concat [all_years_df; all_series_df]) Hmain) as (all_df & ->).
  simpl. unfold makedirs_error. rewrite decide_False by done.
  rewrite Hmk. simpl. rewrite Hcsv. simpl. rewrite Hjson. simpl.
  by eexists.
Qed.

Lemma merger_partial_write_witness :
  expected_columns "Casting" ⊆ combined_columns years_sample series_sample ∧
  ("Casting" ∉ ["Year"; "Series"]) ∧
  os_makedirs json_refused (dirname csv_outfile) = None ∧
  open_for_write json_refused csv_outfile = None ∧
  open_for_write json_refused json_outfile
    = Some (mk_exn PermissionError "Permission denied") ∧
  ∃ out,
    merged_table "Casting" years_sample series_sample = Returned out ∧
    create_combined_csv_file json_refused "Casting" years_sample
                             series_sample fresh
    = (Raised (mk_exn PermissionError "Permission denied"),
       mk_state (<[csv_outfile := CatalogCsv out]> (files fresh))
                ({[dirname csv_outfile]} ∪ dirs fresh)
                (log fresh ++
                   [mk_log INFO ("CSV saved to " +:+ csv_outfile +:+ ".")])).
Proof.
  assert (Hsub : expected_columns "Casting"
                   ⊆ combined_columns years_sample series_sample).
  { by apply (bool_decide_unpack _). }
  assert (Hmain : "Casting" ∉ ["Year"; "Series"]).
  { by apply (bool_decide_unpack _). }
  split_and!; [exact Hsub|exact Hmain|reflexivity..|].
  exact (merger_partial_write json_refused "Casting" years_sample
           series_sample fresh _ Hsub Hmain eq_refl eq_refl eq_refl).
Defined.

(** ** The whole run, continued *)

Lemma bind_returned {A B} (m : M A) (f : A → M B) st a st' :
  m st = (Returned a, st') → (m ≫= f) st = f a st'.
Proof. unfold mbind, M_bind. by intros ->. Qed.

Lemma create_csv_files_run w main_column_name data_dict dict_key order st :
  world_raises_errors w →
  ∃ st', create_csv_files w main_column_name data_dict dict_key order st
         = (Returned (batch_table w main_column_name data_dict dict_key order),
            st') ∧
         files st' !! csv_outfile = files st !! csv_outfile ∧
         files st' !! json_outfile = files st !! json_outfile.
Proof.
  intros Hw.
  pose proof (create_csv_files_value w main_column_name data_dict dict_key
                order st Hw) as Hvalue.
  pose proof (run_pool_footprint w main_column_name data_dict order
                (batch_started dict_key st)) as [Hfiles _].
  revert Hvalue Hfiles. unfold create_csv_files, executor. run_M.
  fold (batch_started dict_key st).
  destruct (run_pool _ order (batch_started dict_key st))
    as [completed st1].
  destruct (gather_state dict_key completed st1) as [Hgf _].
  destruct (gather dict_key completed st1) as [r st2]. simpl in *.
  intros -> Hfiles. exists st2. rewrite Hgf. split_and!; [done| |].
  - apply Hfiles. intros label _ Heq. symmetry in Heq.
    by apply export_path_not_catalog in Heq.
  - apply Hfiles. intros label _ Heq. symmetry in Heq.
    by apply export_path_not_catalog in Heq.
Qed.

Lemma create_combined_csv_file_skip w main_column_name y s st :
  ¬ (expected_columns main_column_name ⊆ combined_columns y s) →
  create_combined_csv_file w main_column_name y s st
  = (Returned tt,
     logged st [mk_log INFO
                  "Missing expected columns. Skipping CSV and JSON creation."]).
Proof.
  intros Hmiss. unfold create_combined_csv_file. by rewrite decide_False.
Qed.

(** [main] by its three steps, under a world that raises errors only. *)
Lemma main_run w order_years order_series st :
  world_raises_errors w →
  ∃ st3,
    files st3 !! csv_outfile = files st !! csv_outfile ∧
    files st3 !! json_outfile = files st !! json_outfile ∧
    main w order_years order_series st
    = (create_combined_csv_file w "Casting"
         (batch_table w "Casting" create_years_dict "Year" order_years)
         (batch_table w "Casting" create_series_dict "Series" order_series);;
       log_message "Finished creating combined files.")
        (merge_started st3).
Proof.
  intros Hw. unfold main, wrapper_create_csv_files.
  destruct (create_csv_files_run w "Casting" create_years_dict "Year"
              order_years (main_started st) Hw) as (st2 & Hy & Hyc & Hyj).
  destruct (create_csv_files_run w "Casting" create_series_dict "Series"
              order_series st2 Hw) as (st3 & Hs & Hsc & Hsj).
  exists st3. split_and!.
  - by rewrite Hsc, Hyc.
  - by rewrite Hsj, Hyj.
  - rewrite (bind_returned _ _ st tt (main_started st)) by done.
    rewrite (bind_returned _ _ _ _ _ Hy), (bind_returned _ _ _ _ _ Hs).
    by rewrite (bind_returned _ _ st3 tt (merge_started st3)).
Qed.

Lemma combined_columns_eq y y' s s' :
  columns y = columns y' → columns s = columns s' →
  combined_columns y s = combined_columns y' s'.
Proof. unfold combined_columns. by intros -> ->. Qed.

Lemma catalog_paths_differ : csv_outfile ≠ json_outfile.
Proof. done. Qed.

(** What [main] leaves at the two catalog paths. *)
Lemma main_catalog_files w order_years order_series st :
  world_raises_errors w → accepts_catalog w →
  let all_years_df :=
    batch_table w "Casting" create_years_dict "Year" order_years in
  let all_series_df :=
    batch_table w "Casting" create_series_dict "Series" order_series in
  ∃ out st',
    merged_table "Casting" all_years_df all_series_df = Returned out ∧
    main w order_years order_series st = (Returned tt, st') ∧
    if decide (expected_columns "Casting"
                 ⊆ combined_columns all_years_df all_series_df)
    then files st' !! csv_outfile = Some (CatalogCsv out) ∧
         files st' !! json_outfile = Some (CatalogJson out)
    else files st' !! csv_outfile = files st !! csv_outfile ∧
         files st' !! json_outfile = files st !! json_outfile.
Proof.
  intros Hw Hfs. cbv zeta.
  destruct (main_run w order_years order_series st Hw)
    as (st3 & Hcsv & Hjson & ->).
  set (y := batch_table w "Casting" create_years_dict "Year" order_years).
  set (s := batch_table w "Casting" create_series_dict "Series" order_series).
  assert (∃ out, merged_table "Casting" y s = Returned out) as [out Hout].
  { unfold merged_table. cbv zeta.
    destruct (groupby_agg_returned "Casting" (concat [y; s])) as (a & ->);
      [by apply (bool_decide_unpack _)|eauto]. }
  exists out. case_decide as Hsub.
  - eexists. split; [done|]. split.
    + erewrite bind_returned;
        [|by apply (create_combined_csv_file_writes _ _ _ _ out)].
      reflexivity.
    + simpl. split.
      * rewrite lookup_insert_ne by (symmetry; apply catalog_paths_differ).
        apply lookup_insert_eq.
      * apply lookup_insert_eq.
  - eexists. split; [done|]. split.
    + erewrite bind_returned; [|by apply create_combined_csv_file_skip].
      reflexivity.
    + by simpl.
Qed.



(** X19: the catalog does not depend on the order in which the units of
    the two batches complete: two runs of [main] whose completion orders
    are permutations of each other leave the same content at the two
    catalog paths. *)
Theorem catalog_independent_of_completion_order w order_years order_years'
    order_series order_series' st :
  world_raises_errors w → accepts_catalog w →
  order_years ≡ₚ order_years' → order_series ≡ₚ order_series' →
  files (main w order_years order_series st).2 !! csv_outfile
  = files (main w order_years' order_series' st).2 !! csv_outfile ∧
  files (main w order_years order_series st).2 !! json_outfile
  = files (main w order_years' order_series' st).2 !! json_outfile.
Proof.
  intros Hw Hfs Hy Hs.
  destruct (main_catalog_files w order_years order_series st Hw Hfs)
    as (out & st1 & Hout & -> & Hfiles).
  destruct (main_catalog_files w order_years' order_series' st Hw Hfs)
    as (out' & st1' & Hout' & -> & Hfiles').
  cbv zeta in *.
  destruct (combine_tagged_perm "Year" "Casting"
              (successes (omap (future_of w "Casting" create_years_dict)
                               order_years))
              (successes (omap (future_of w "Casting" create_years_dict)
                               order_years'))) as [Hyc Hyr];
    [done|unfold successes; by rewrite Hy|by apply futures_frames|].
  destruct (combine_tagged_perm "Series" "Casting"
              (successes (omap (future_of w "Casting" create_series_dict)
                               order_series))
              (successes (omap (future_of w "Casting" create_series_dict)
                               order_series'))) as [Hsc Hsr];
    [done|unfold successes; by rewrite Hs|by apply futures_frames|].
  fold (batch_table w "Casting" create_years_dict "Year" order_years)
    in Hyc, Hyr.
  fold (batch_table w "Casting" create_years_dict "Year" order_years')
    in Hyc, Hyr.
  fold (batch_table w "Casting" create_series_dict "Series" order_series)
    in Hsc, Hsr.
  fold (batch_table w "Casting" create_series_dict "Series" order_series')
    in Hsc, Hsr.
  rewrite <- (combined_columns_eq _ _ _ _ Hyc Hsc) in Hfiles'.
  rewrite <- (merged_table_perm "Casting" _ _ _ _ Hyc Hyr Hsc Hsr) in Hout'.
  assert (out' = out) as -> by congruence.
  simpl. case_decide.
  - destruct Hfiles as [-> ->], Hfiles' as [-> ->]. done.
  - destruct Hfiles as [-> ->], Hfiles' as [-> ->]. done.
Qed.

Lemma catalog_independent_of_completion_order_witness :
  world_raises_errors (serve 200 [[names_table]]) ∧
  accepts_catalog (serve 200 [[names_table]]) ∧
  seq 0 10 ≡ₚ rev (seq 0 10) ∧
  seq 0 7 ≡ₚ rev (seq 0 7) ∧
  files (main (serve 200 [[names_table]]) (seq 0 10) (seq 0 7) fresh).2
    !! csv_outfile
  = files (main (serve 200 [[names_table]]) (rev (seq 0 10)) (rev (seq 0 7))
                fresh).2 !! csv_outfile ∧
  files (main (serve 200 [[names_table]]) (seq 0 10) (seq 0 7) fresh).2
    !! json_outfile
  = files (main (serve 200 [[names_table]]) (rev (seq 0 10)) (rev (seq 0 7))
                fresh).2 !! json_outfile.
Proof.
  assert (Hw : world_raises_errors (serve 200 [[names_table]])).
  { split_and!; intros ? e; simpl; done. }
  assert (Hfs : accepts_catalog (serve 200 [[names_table]])).
  { by split_and!. }
  assert (Hy : seq 0 10 ≡ₚ rev (seq 0 10)) by apply Permutation_rev.
  assert (Hs : seq 0 7 ≡ₚ rev (seq 0 7)) by apply Permutation_rev.
  split_and!; [exact Hw|exact Hfs|exact Hy|exact Hs|..];
    apply (catalog_independent_of_completion_order
             (serve 200 [[names_table]]) (seq 0 10) (rev (seq 0 10))
             (seq 0 7) (rev (seq 0 7)) fresh Hw Hfs Hy Hs).
Defined.

(** ** Without network *)

Lemma scrape_url_no_network w url table_index outfile main_column_name st :
  no_network w →
  ∃ records,
    scrape_url w url table_index outfile main_column_name st
    = (Returned None, logged st records).
Proof.
  intros Hnet. destruct (Hnet url) as (e & Hget & He).
  assert (Htry : scrape_try w url table_index outfile main_column_name st
                 = (Raised e,
                    logged st [mk_log INFO ("Fetching URL: " +:+ url)])).
  { unfold scrape_try. run_M. by rewrite Hget. }
  rewrite (scrape_url_handled _ _ _ _ _ _ _ _ Htry He).
  eexists. unfold logged. simpl. by rewrite <- (assoc_L (++)).
Qed.

Lemma run_pool_no_network w main_column_name data_dict order st :
  no_network w →
  ∃ completed records,
    run_pool (submit_all w main_column_name data_dict) order st
      = (completed, logged st records) ∧
    Forall (λ f : Future, f.2 = Returned None) completed.
Proof.
  intros Hnet. revert st. induction order as [|i order IH]; intros st; simpl.
  - exists [], []. split; [|done]. unfold logged.
    rewrite (right_id_L [] (++)). by destruct st.
  - destruct (submit_all w main_column_name data_dict !! i)
      as [[label task]|] eqn:Hu; [|apply IH].
    apply submit_all_lookup in Hu as (_ & table_index & ->).
    destruct (scrape_url_no_network w (page_url label) table_index
                (export_path label) main_column_name st Hnet)
      as (records & ->).
    destruct (IH (logged st records)) as (completed & records' & -> & Hall).
    eexists _, (records ++ records'). split.
    + unfold logged. simpl. by rewrite (assoc_L (++)).
    + by constructor.
Qed.

Lemma create_csv_files_no_network w main_column_name data_dict dict_key order
    st :
  no_network w →
  ∃ records,
    create_csv_files w main_column_name data_dict dict_key order st
    = (Returned empty_frame, logged st records).
Proof.
  intros Hnet. unfold create_csv_files, executor. run_M.
  fold (batch_started dict_key st).
  destruct (run_pool_no_network w main_column_name data_dict order
              (batch_started dict_key st) Hnet)
    as (completed & records & -> & Hall).
  rewrite gather_returned.
  2:{ eapply Forall_impl; [exact Hall|]. intros f ->. eauto. }
  rewrite successes_none by done.
  eexists. unfold logged, batch_started. simpl.
  by rewrite <- (assoc_L (++)).
Qed.

(** X20: when no page can be fetched, [main] still returns normally: both
    batches give the empty frame, the Catalog Merger skips, and the run
    writes no file and creates no directory; it only logs. *)
Theorem main_without_network w order_years order_series st :
  no_network w →
  ∃ records,
    main w order_years order_series st = (Returned tt, logged st records).
Proof.
  intros Hnet. unfold main, wrapper_create_csv_files.
  rewrite (bind_returned _ _ st tt (main_started st)) by done.
  destruct (create_csv_files_no_network w "Casting" create_years_dict "Year"
              order_years (main_started st) Hnet) as (r1 & Hy).
  rewrite (bind_returned _ _ _ _ _ Hy).
  destruct (create_csv_files_no_network w "Casting" create_series_dict
              "Series" order_series (logged (main_started st) r1) Hnet)
    as (r2 & Hs).
  rewrite (bind_returned _ _ _ _ _ Hs).
  erewrite bind_returned; [|reflexivity].
  erewrite bind_returned.
  2:{ apply create_combined_csv_file_skip. by apply (bool_decide_unpack _). }
  eexists. unfold log_message, append_log, logged, main_started. simpl.
  by rewrite <- !(assoc_L (++)).
Qed.

Lemma main_without_network_witness :
  no_network offline ∧
  ∃ records,
    main offline (seq 0 10) (seq 0 7) fresh = (Returned tt, logged fresh records).
Proof.
  assert (Hnet : no_network offline).
  { intros url. eexists. split; reflexivity. }
  split; [exact Hnet|].
  exact (main_without_network offline (seq 0 10) (seq 0 7) fresh Hnet).
Defined.
